(** * tarantula-ir: the IR temperature data logger (src/main/main.ino) and its
    calibration sketch (src/calibrate/calibrate.ino)

    The two Arduino sketches are embedded as programs of a small monad over
    the state of the board.  Every call into a library (DS3231, MLX90614, SD,
    Serial, the pin functions, delay) is a primitive that appends one event to
    a trace; what a peripheral answers is supplied by an environment record,
    one field per call site.  The SD card holds one file, datalog.csv, as a
    sequence of bytes. *)

From Stdlib Require Import ZArith NArith List String Ascii Bool Lia.
From Stdlib Require Import SpecFloat DecimalString DecimalPos DecimalN.
Import ListNotations.
Open Scope string_scope.

(** ** Values *)

(** A C [float] of the ATmega328P: IEEE 754 binary32. *)
Definition float : Type := spec_float.
Definition float_of_int (i : Z) : float := binary_normalize 24 128 i 0 false.

(** [String(byte)]: the decimal digits of the value, nothing added. *)
Definition String_byte (b : N) : string := NilZero.string_of_uint (N.to_uint b).

Definition CR : ascii := ascii_of_nat 13.
Definition LF : ascii := ascii_of_nat 10.
Definition NUL : ascii := ascii_of_nat 0.
Definition CRLF : string := String CR (String LF EmptyString).

(** ** What the libraries are asked to do *)

Inductive RtcOp : Type :=
| getTemperature | getYear | getMonth | getDate | getHour | getMinute | getSecond
| setClockMode (h12 : bool) | setYear (v : N) | setMonth (v : N) | setDate (v : N)
| setHour (v : N) | setMinute (v : N) | setSecond (v : N).

Inductive MlxOp : Type :=
| mlx_begin | readEmissivity | readAmbientTempC | readObjectTempC
| writeEmissivity (v : float).

Inductive Event : Type :=
| EvPinMode (pin : Z)
| EvDigitalWrite (pin : Z) (high : bool)
| EvSerialBegin (baud : Z)
| EvWireBegin
| EvSerialPrint (s : string)
| EvSerialPrintln (s : string)
| EvDelay (ms : Z)
| EvRtc (op : RtcOp)
| EvMlx (op : MlxOp)
| EvSdBegin (cs : Z) (ok : bool)
| EvSdExists (found : bool)
| EvSdOpen (ok : bool)
| EvFilePrintln (s : string) (written : bool)
| EvFileClose.

(** ** State of the board *)

Record World : Type := mkWorld {
  led : bool;               (* level of pin D7 *)
  datalog : bool;           (* the global [File datalog] is an open handle *)
  card : option string;     (* datalog.csv on the card: absent, or its bytes *)
  trace : list Event        (* library calls so far, oldest first *)
}.

Definition log (e : Event) (w : World) : World :=
  mkWorld (led w) (datalog w) (card w) (trace w ++ [e]).
Definition set_led (b : bool) (w : World) : World :=
  mkWorld b (datalog w) (card w) (trace w).
Definition set_datalog (b : bool) (w : World) : World :=
  mkWorld (led w) b (card w) (trace w).
Definition set_card (c : option string) (w : World) : World :=
  mkWorld (led w) (datalog w) c (trace w).

(** The four [while(true);] of setup, by the test they follow. *)
Inductive Stage : Type := RTC_test | IR_test | uSD_test | datalog_test.

(** How a run of statements ends. *)
Inductive Outcome (A : Type) : Type :=
| Done (a : A) (w : World)         (* control reached the end *)
| Halted (at_ : Stage) (w : World) (* spinning in a [while(true);] *)
| Polling (w : World)              (* still inside [while (!SD.begin(CS))] *)
| Overrun (w : World).             (* strcpy wrote outside its destination *)
Arguments Done {A} a w.
Arguments Halted {A} at_ w.
Arguments Polling {A} w.
Arguments Overrun {A} w.

Definition M (A : Type) : Type := World -> Outcome A.

Definition ret {A} (a : A) : M A := fun w => Done a w.
Definition bind {A B} (m : M A) (k : A -> M B) : M B :=
  fun w =>
    match m w with
    | Done a w' => k a w'
    | Halted s w' => Halted s w'
    | Polling w' => Polling w'
    | Overrun w' => Overrun w'
    end.

Declare Scope prog_scope.
Delimit Scope prog_scope with prog.
Notation "x <- m ;; k" := (bind m (fun x => k))
  (at level 61, m at next level, right associativity) : prog_scope.
Notation "m ;; k" := (bind m (fun _ => k))
  (at level 61, right associativity) : prog_scope.
Open Scope prog_scope.

Definition world_of {A} (o : Outcome A) : World :=
  match o with
  | Done _ w | Halted _ w | Polling w | Overrun w => w
  end.

Definition emit (e : Event) : M unit := fun w => Done tt (log e w).

(** [while(true);] *)
Definition spin {A} (s : Stage) : M A := fun w => Halted s w.

(** ** Library primitives *)

Definition LED : Z := 7.
Definition CS : Z := 10.
Definition CSV_HEADER : string :=
  "Time (PET),Object Temperature,Ambient Temperature".

Definition pinMode (pin : Z) : M unit := emit (EvPinMode pin).

Definition digitalWrite (pin : Z) (high : bool) : M unit :=
  fun w =>
    let w' := if Z.eqb pin LED then set_led high w else w in
    Done tt (log (EvDigitalWrite pin high) w').

Definition Serial_begin (baud : Z) : M unit := emit (EvSerialBegin baud).
Definition Wire_begin : M unit := emit EvWireBegin.
Definition Serial_print (s : string) : M unit := emit (EvSerialPrint s).
Definition Serial_println (s : string) : M unit := emit (EvSerialPrintln s).
Definition delay (ms : Z) : M unit := emit (EvDelay ms).

(** A getter of a peripheral: one bus read, answered by the environment. *)
Definition rtc_get {A} (op : RtcOp) (answer : A) : M A :=
  emit (EvRtc op) ;; ret answer.
Definition rtc_set (op : RtcOp) : M unit := emit (EvRtc op).
Definition mlx_get {A} (op : MlxOp) (answer : A) : M A :=
  emit (EvMlx op) ;; ret answer.
Definition mlx_set (op : MlxOp) : M unit := emit (EvMlx op).

Definition SD_begin (cs : Z) (ok : bool) : M bool :=
  emit (EvSdBegin cs ok) ;; ret ok.

Definition is_some {A} (o : option A) : bool :=
  match o with Some _ => true | None => false end.

(** [SD.exists("datalog.csv")] *)
Definition SD_exists : M bool :=
  fun w => Done (is_some (card w)) (log (EvSdExists (is_some (card w))) w).

(** [datalog = SD.open("datalog.csv", FILE_WRITE)]: FILE_WRITE creates the
    file when it is missing and positions at its end; [ok] says whether the
    library could open it. *)
Definition SD_open (ok : bool) : M unit :=
  fun w =>
    let c := if ok then Some (match card w with Some s => s | None => "" end)
             else card w in
    Done tt (log (EvSdOpen ok) (set_datalog ok (set_card c w))).

(** [datalog.println(s)]: writes nothing through a handle that is not open. *)
Definition datalog_println (s : string) : M unit :=
  fun w =>
    match datalog w, card w with
    | true, Some content =>
        Done tt (log (EvFilePrintln s true) (set_card (Some (content ++ s ++ CRLF)) w))
    | _, _ => Done tt (log (EvFilePrintln s false) w)
    end.

(** [if (datalog)] *)
Definition datalog_ok : M bool := fun w => Done (datalog w) w.

Definition datalog_close : M unit :=
  fun w => Done tt (log EvFileClose (set_datalog false w)).

(** ** strcpy into a fixed buffer *)

(** The bytes strcpy stores, each with its offset from the destination: the
    characters of the source and the terminating NUL. *)
Definition strcpy_writes (src : string) : list (nat * ascii) :=
  combine (seq 0 (S (String.length src))) (list_ascii_of_string src ++ [NUL]).

Definition within (size : nat) (writes : list (nat * ascii)) : bool :=
  forallb (fun oc => Nat.ltb (fst oc) size) writes.

Fixpoint store (buf : list ascii) (off : nat) (c : ascii) : list ascii :=
  match buf, off with
  | [], _ => []
  | _ :: rest, O => c :: rest
  | b :: rest, S off' => b :: store rest off' c
  end.

(** The C string that starts at the beginning of a buffer. *)
Fixpoint c_string (buf : list ascii) : string :=
  match buf with
  | [] => ""
  | c :: rest => if Ascii.eqb c NUL then "" else String c (c_string rest)
  end.

(** [char dst[size]{}; strcpy(dst, src.c_str());] and then [dst] read as a
    string. *)
Definition strcpy (size : nat) (src : string) : M string :=
  fun w =>
    let writes := strcpy_writes src in
    if within size writes then
      Done (c_string (fold_left (fun b oc => store b (fst oc) (snd oc))
                                writes (repeat NUL size))) w
    else Overrun w.

(** ** What the peripherals answer *)

(** The six registers print_time reads, each a byte. *)
Record Clock : Type := mkClock {
  year : N; month : N; date : N; hour : N; minute : N; second : N
}.

(** Answers to the library calls of one run of setup. *)
Record SetupEnv : Type := mkSetupEnv {
  rtc_temperature : float;   (* rtc.getTemperature() *)
  setup_clock : Clock;       (* the registers read by print_time() *)
  ir_begin : bool;           (* mlx.begin() *)
  ir_emissivity : float;     (* mlx.readEmissivity() *)
  usd_begin : bool;          (* SD.begin(CS) *)
  open_header : bool;        (* SD.open before the header is written *)
  open_check : bool          (* SD.open of the accessibility test *)
}.

(** Answers to the library calls of one run of loop; [usd_polls] are the
    answers of SD.begin(CS) in the order they are asked for. *)
Record LoopEnv : Type := mkLoopEnv {
  loop_clock : Clock;
  ambient : float;           (* mlx.readAmbientTempC() *)
  object : float;            (* mlx.readObjectTempC() *)
  usd_polls : list bool;
  open_append : bool         (* SD.open before the record is written *)
}.

(** ** src/calibrate/calibrate.ino *)

Module Calibrate.

(** 0.95 as a binary32. *)
Definition emissivity : float := S754_finite false 15938355 (-24).

Definition setup : M unit :=
  Serial_begin 9600 ;;
  Wire_begin ;;
  rtc_set (setClockMode false) ;;
  rtc_set (setYear 24) ;;
  rtc_set (setMonth 4) ;;
  rtc_set (setDate 8) ;;
  rtc_set (setHour 3) ;;
  rtc_set (setMinute 9) ;;
  rtc_set (setSecond 5) ;;
  Serial_println "Clock set!" ;;
  mlx_get mlx_begin tt ;;
  mlx_set (writeEmissivity emissivity) ;;
  Serial_println "IR set!".

Definition loop : M unit := ret tt.

End Calibrate.

(** ** src/main/main.ino *)

Definition data_str_size : nat := 32.

(** -9999, the error return of the clock's temperature sensor, as the float
    the comparison sees. *)
Definition rtc_error : float := float_of_int (-9999).

Section Main.

(** The Arduino core's [String(float)] and [Serial.println(double)]; their
    code is not part of the sketch. *)
Variable String_float : float -> string.
Variable Print_double : float -> string.

(** The flags getMonth and getHour hand back (century_bit, h12, hPM) are
    not read anywhere in the sketch and have no place in the state. *)
Definition print_time (c : Clock) : M string :=
  y <- rtc_get getYear (year c) ;;
  let date_ := "20" ++ String_byte y in
  m <- rtc_get getMonth (month c) ;;
  let date_ := date_ ++ "-" ++ String_byte m in
  d <- rtc_get getDate (date c) ;;
  let date_ := date_ ++ "-" ++ String_byte d in
  let date_ := date_ ++ " " in
  h <- rtc_get getHour (hour c) ;;
  let date_ := date_ ++ String_byte h in
  mi <- rtc_get getMinute (minute c) ;;
  let date_ := date_ ++ ":" ++ String_byte mi in
  s <- rtc_get getSecond (second c) ;;
  let date_ := date_ ++ ":" ++ String_byte s in
  ret date_.

(** [while (!Serial);] needs no step: the serial port of the ATmega328P is
    ready at once. *)
Definition setup (e : SetupEnv) : M unit :=
  pinMode LED ;;
  digitalWrite LED true ;;
  Serial_begin 9600 ;;
  Wire_begin ;;
  (* test RTC module *)
  Serial_print "Testing RTC module (DS3231)..." ;;
  t <- rtc_get getTemperature (rtc_temperature e) ;;
  (if SFleb t rtc_error then
     Serial_println "FAIL!" ;; spin RTC_test
   else
     Serial_println "DONE!") ;;
  Serial_print "Time = " ;;
  now <- print_time (setup_clock e) ;;
  Serial_println now ;;
  (* test IR module *)
  Serial_print "Initializing IR module (MLX90614)..." ;;
  ok <- mlx_get mlx_begin (ir_begin e) ;;
  (if negb ok then
     Serial_println "FAIL!" ;; spin IR_test
   else
     Serial_println "DONE!") ;;
  Serial_print "Emissivity = " ;;
  em <- mlx_get readEmissivity (ir_emissivity e) ;;
  Serial_println (Print_double em) ;;
  (* test uSD module *)
  pinMode CS ;;
  digitalWrite CS true ;;
  Serial_print "Initializing uSD module (ADA254)... " ;;
  ok <- SD_begin CS (usd_begin e) ;;
  (if negb ok then
     Serial_println "FAIL!" ;; spin uSD_test
   else
     Serial_println "SUCCESS!") ;;
  (* write the header line if the file does not exist yet *)
  found <- SD_exists ;;
  (if negb found then
     SD_open (open_header e) ;;
     datalog_println CSV_HEADER ;;
     datalog_close ;;
     Serial_print "Wrote header to datalog: " ;;
     Serial_println CSV_HEADER
   else ret tt) ;;
  (* check that datalog.csv is accessible *)
  SD_open (open_check e) ;;
  ok <- datalog_ok ;;
  (if negb ok then
     Serial_println "datalog.csv file is NOT accessible!" ;; spin datalog_test
   else
     Serial_println "datalog.csv file is accessible!") ;;
  datalog_close ;;
  (* signal that setup is completed *)
  delay 1000 ;;
  digitalWrite LED false ;;
  Serial_println "***** INITIALIZATION COMPLETE! *****".

(** [while (!SD.begin(CS)) { ...; delay(1000); }] against the answers the
    card gives; when they are used up and none was a success, control is
    still in the loop. *)
Fixpoint wait_for_card (polls : list bool) : M unit :=
  match polls with
  | [] => fun w => Polling w
  | answer :: later =>
      ok <- SD_begin CS answer ;;
      if negb ok then
        Serial_println "No uSD card detected!" ;;
        delay 1000 ;;
        wait_for_card later
      else ret tt
  end.

Definition loop (e : LoopEnv) : M unit :=
  time <- print_time (loop_clock e) ;;
  a <- mlx_get readAmbientTempC (ambient e) ;;
  let ambient_temp := String_float a in
  o <- mlx_get readObjectTempC (object e) ;;
  let object_temp := String_float o in
  let data := time ++ "," ++ object_temp ++ "," ++ ambient_temp in
  data_str <- strcpy data_str_size data ;;
  Serial_println data_str ;;
  wait_for_card (usd_polls e) ;;
  SD_open (open_append e) ;;
  ok <- datalog_ok ;;
  (if ok then
     datalog_println data_str ;;
     Serial_println "wrote to datalog.csv"
   else
     Serial_println "Could not open datalog.csv!" ;;
     digitalWrite LED true ;;
     delay 200 ;;
     digitalWrite LED false ;;
     delay 200 ;;
     digitalWrite LED true ;;
     delay 200 ;;
     digitalWrite LED false) ;;
  datalog_close ;;
  delay 60000.

(** The Arduino core's main: setup once, then loop again and again; here
    for as many iterations as there are environments. *)
Fixpoint loops (es : list LoopEnv) : M unit :=
  match es with
  | [] => ret tt
  | e :: later => loop e ;; loops later
  end.

Definition main (se : SetupEnv) (es : list LoopEnv) : M unit :=
  setup se ;; loops es.

End Main.

(** The board at power-on with a given card in the slot. *)
Definition power_on (c : option string) : World := mkWorld false false c [].

(** ** Reading the model *)

(** The events a run added to the trace are stated with [add_events]. *)
Definition add_events (evs : list Event) (w : World) : World :=
  mkWorld (led w) (datalog w) (card w) (trace w ++ evs).

(** A text file of CRLF-terminated lines, and the lines of a text file. *)
Definition unlines (ls : list string) : string :=
  String.concat "" (map (fun l => l ++ CRLF) ls).

Fixpoint split_lines (cur s : string) : list string :=
  match s with
  | "" => match cur with "" => [] | _ => [cur] end
  | String c rest =>
      if Ascii.eqb c LF then cur :: split_lines "" rest
      else if Ascii.eqb c CR then split_lines cur rest
      else split_lines (cur ++ String c "") rest
  end.
Definition file_lines (content : string) : list string := split_lines "" content.

(** Text without NUL, CR or LF. *)
Definition plain_char (c : ascii) : bool :=
  negb (Ascii.eqb c NUL || Ascii.eqb c CR || Ascii.eqb c LF).
Fixpoint plain (s : string) : bool :=
  match s with
  | "" => true
  | String c rest => plain_char c && plain rest
  end.

(** The timestamp print_time builds and the record loop builds from it. *)
Definition timestamp (c : Clock) : string :=
  let date_ := "20" ++ String_byte (year c) in
  let date_ := date_ ++ "-" ++ String_byte (month c) in
  let date_ := date_ ++ "-" ++ String_byte (date c) in
  let date_ := date_ ++ " " in
  let date_ := date_ ++ String_byte (hour c) in
  let date_ := date_ ++ ":" ++ String_byte (minute c) in
  let date_ := date_ ++ ":" ++ String_byte (second c) in
  date_.

Definition clock_reads : list Event :=
  [EvRtc getYear; EvRtc getMonth; EvRtc getDate;
   EvRtc getHour; EvRtc getMinute; EvRtc getSecond].

Definition record (String_float : float -> string) (e : LoopEnv) : string :=
  timestamp (loop_clock e) ++ "," ++ String_float (object e) ++ "," ++
  String_float (ambient e).

(** The clock as the data sheet bounds it. *)
Definition valid_clock (c : Clock) : bool :=
  (year c <=? 99)%N && (1 <=? month c)%N && (month c <=? 12)%N &&
  (1 <=? date c)%N && (date c <=? 31)%N && (hour c <=? 23)%N &&
  (minute c <=? 59)%N && (second c <=? 59)%N.

(** The events one iteration of loop adds, by phase. *)
Definition sensor_reads : list Event :=
  clock_reads ++ [EvMlx readAmbientTempC; EvMlx readObjectTempC].

Definition retry : list Event :=
  [EvSdBegin CS false; EvSerialPrintln "No uSD card detected!"; EvDelay 1000].
Definition retries (n : nat) : list Event := List.concat (repeat retry n).

Definition append_events (line : string) : list Event :=
  [EvSdOpen true; EvFilePrintln line true;
   EvSerialPrintln "wrote to datalog.csv"; EvFileClose; EvDelay 60000].

Definition failure_events : list Event :=
  [EvSdOpen false; EvSerialPrintln "Could not open datalog.csv!";
   EvDigitalWrite LED true; EvDelay 200; EvDigitalWrite LED false; EvDelay 200;
   EvDigitalWrite LED true; EvDelay 200; EvDigitalWrite LED false;
   EvFileClose; EvDelay 60000].

(** The events setup adds up to and including the clock test that passed. *)
Definition rtc_passed : list Event :=
  [EvPinMode LED; EvDigitalWrite LED true; EvSerialBegin 9600; EvWireBegin;
   EvSerialPrint "Testing RTC module (DS3231)..."; EvRtc getTemperature;
   EvSerialPrintln "DONE!"; EvSerialPrint "Time = "].

(** The events of a run, given the state it started from. *)
Definition events_since (w w' : World) : list Event :=
  skipn (List.length (trace w)) (trace w').

(** The levels written to the indicator pin, in order. *)
Definition led_levels (evs : list Event) : list bool :=
  flat_map (fun ev => match ev with
                      | EvDigitalWrite pin high =>
                          if Z.eqb pin LED then [high] else []
                      | _ => []
                      end) evs.

(** On/off pulses of the indicator: the times it goes from on to off. *)
Fixpoint pulses (on : bool) (levels : list bool) : nat :=
  match levels with
  | [] => 0
  | l :: rest => (if on && negb l then 1 else 0) + pulses l rest
  end.

(** The delays that follow a write of the indicator directly. *)
Fixpoint phases (evs : list Event) : list Z :=
  match evs with
  | EvDigitalWrite pin _ :: ((EvDelay ms :: _) as rest) =>
      if Z.eqb pin LED then ms :: phases rest else phases rest
  | _ :: rest => phases rest
  | [] => []
  end.

Definition is_open (ev : Event) : bool :=
  match ev with EvSdOpen _ => true | _ => false end.

Definition is_file_println (ev : Event) : bool :=
  match ev with EvFilePrintln _ _ => true | _ => false end.

(** Calls on the file: open, println, close. *)
Definition on_file (ev : Event) : bool :=
  match ev with
  | EvSdOpen _ | EvFilePrintln _ _ | EvFileClose => true
  | _ => false
  end.

(** Calls into the SD library. *)
Definition on_card (ev : Event) : bool :=
  match ev with
  | EvSdBegin _ _ | EvSdExists _ => true
  | _ => on_file ev
  end.

(** Calls that change what the clock or the sensor holds. *)
Definition writes_peripheral (ev : Event) : bool :=
  match ev with
  | EvRtc (setClockMode _) | EvRtc (setYear _) | EvRtc (setMonth _)
  | EvRtc (setDate _) | EvRtc (setHour _) | EvRtc (setMinute _)
  | EvRtc (setSecond _) => true
  | EvMlx (writeEmissivity _) => true
  | _ => false
  end.

(** Calls that only read the clock or the sensor. *)
Definition reads_peripheral (ev : Event) : bool :=
  match ev with
  | EvRtc getTemperature | EvRtc getYear | EvRtc getMonth | EvRtc getDate
  | EvRtc getHour | EvRtc getMinute | EvRtc getSecond => true
  | EvMlx mlx_begin | EvMlx readEmissivity | EvMlx readAmbientTempC
  | EvMlx readObjectTempC => true
  | _ => false
  end.

Definition on_peripheral (ev : Event) : bool :=
  match ev with EvRtc _ | EvMlx _ => true | _ => false end.

(** Some startup check of setup fails. *)
Definition check_fails (se : SetupEnv) : bool :=
  SFleb (rtc_temperature se) rtc_error || negb (ir_begin se) ||
  negb (usd_begin se) || negb (open_check se).

(** The failure comes before the card is touched. *)
Definition fails_before_storage (se : SetupEnv) : bool :=
  SFleb (rtc_temperature se) rtc_error || negb (ir_begin se).

(** A run adds events and each of them satisfies [P]. *)
Definition only_adds {A} (P : Event -> bool) (m : M A) : Prop :=
  forall w, exists evs,
    trace (world_of (m w)) = (trace w ++ evs)%list /\ forallb P evs = true.

(** ** Sample data *)

(** An instance of [String(float)]: two decimals, halves rounded away from
    zero. *)
Definition hundredths (m : positive) (e : Z) : Z :=
  match e with
  | Zneg p => (200 * Zpos m + 2 ^ Zpos p) / 2 ^ (Zpos p + 1)
  | _ => 100 * Zpos m * 2 ^ e
  end.

Definition String_Z (z : Z) : string := NilZero.string_of_uint (N.to_uint (Z.to_N z)).

Definition sample_String_float (f : float) : string :=
  match f with
  | S754_nan => "NAN"
  | S754_infinity s => if s then "-INF" else "INF"
  | S754_zero s => if s then "-0.00" else "0.00"
  | S754_finite s m e =>
      let h := hundredths m e in
      (if s then "-" else "") ++ String_Z (h / 100) ++ "." ++
      (if h mod 100 <? 10 then "0" else "") ++ String_Z (h mod 100)
  end%Z.

Definition float_of_hundredths (h : Z) : float :=
  SFdiv 24 128 (float_of_int h) (float_of_int 100).

(** The time calibrate.ino sets: 2024-04-08 03:09:05. *)
Definition calibrated_clock : Clock := mkClock 24 4 8 3 9 5.
(** 2024-12-18 13:19:15. *)
Definition winter_clock : Clock := mkClock 24 12 18 13 19 15.

(** Every peripheral answers and every open succeeds. *)
Definition healthy_setup : SetupEnv :=
  mkSetupEnv (float_of_hundredths 2475) calibrated_clock true
             Calibrate.emissivity true true true.

(** The sensor does not answer to mlx.begin(). *)
Definition sensor_absent : SetupEnv :=
  mkSetupEnv (float_of_hundredths 2475) calibrated_clock false
             Calibrate.emissivity true true true.

(** The open before the header fails, the open after it succeeds. *)
Definition header_open_fails : SetupEnv :=
  mkSetupEnv (float_of_hundredths 2475) calibrated_clock true
             Calibrate.emissivity true false true.

(** The card is found at the third poll and the file opens. *)
Definition reinserted : LoopEnv :=
  mkLoopEnv calibrated_clock (float_of_hundredths 2513)
            (float_of_hundredths 2875) [false; false; true] true.

(** The card is there and the file does not open. *)
Definition write_protected : LoopEnv :=
  mkLoopEnv calibrated_clock (float_of_hundredths 2513)
            (float_of_hundredths 2875) [true] false.

(** A cold night: a 19-character timestamp and two negative readings. *)
Definition cold_night : LoopEnv :=
  mkLoopEnv winter_clock (float_of_hundredths (-1025))
            (float_of_hundredths (-1250)) [true] true.

(** The state after a healthy setup on an empty card and one record. *)
Definition one_record : World :=
  mkWorld false false
    (Some (unlines [CSV_HEADER; "2024-4-8 3:9:5,28.75,25.13"])) [].

(** Every field of the clock has two digits. *)
Definition two_digit_fields (c : Clock) : bool :=
  (10 <=? year c)%N && (10 <=? month c)%N && (10 <=? date c)%N &&
  (10 <=? hour c)%N && (10 <=? minute c)%N && (10 <=? second c)%N.

(** A call that leaves the clock and the sensor as they are: if it is a call
    on one of them, it is one of the getters. *)
Definition read_only (ev : Event) : bool :=
  implb (on_peripheral ev) (reads_peripheral ev) && negb (writes_peripheral ev).

(** What an iteration whose open fails would show if the indicator blinked
    three times: three on/off pulses, the indicator off at the end, nothing
    printed to the file. *)
Definition three_pulses (String_float : float -> string)
           (e : LoopEnv) (w : World) : Prop :=
  let w' := world_of (loop String_float e w) in
  pulses (led w) (led_levels (events_since w w')) = 3 /\
  led w' = false /\
  filter is_file_println (events_since w w') = [].

(** The records a run of iterations appends to the file: an iteration whose
    record does not fit data_str, or that the card never answers, is where
    the run stops; one that opens the file appends its record. *)
Fixpoint appended (String_float : float -> string) (es : list LoopEnv)
  : list string :=
  match es with
  | [] => []
  | e :: later =>
      if Nat.ltb (String.length (record String_float e)) data_str_size
         && existsb (fun present => present) (usd_polls e)
      then (if open_append e then [record String_float e] else [])
           ++ appended String_float later
      else []
  end.

(** ** More of what the sketches do *)

(** What data_str reads as after [strcpy(data_str, src)], and whether the
    copy stays inside data_str. *)
Definition data_str_of (src : string) : string :=
  c_string (fold_left (fun b oc => store b (fst oc) (snd oc))
                      (strcpy_writes src) (repeat NUL data_str_size)).
Definition fits (src : string) : bool :=
  within data_str_size (strcpy_writes src).

(** The answers "absent" before the first answer "present". *)
Fixpoint leading_absent (polls : list bool) : nat :=
  match polls with
  | false :: later => S (leading_absent later)
  | _ => 0
  end.

Definition card_answers (polls : list bool) : bool :=
  existsb (fun present => present) polls.

(** One iteration of loop in closed form, by the four ways it can go: the
    record does not fit data_str; the card never answers; the card answers
    and the file opens; the card answers and the file does not open. *)
Definition loop_summary (String_float : float -> string)
           (e : LoopEnv) (w : World) : Outcome unit :=
  let line := data_str_of (record String_float e) in
  if negb (fits (record String_float e)) then
    Overrun (add_events sensor_reads w)
  else if negb (card_answers (usd_polls e)) then
    Polling (add_events (sensor_reads ++ [EvSerialPrintln line] ++
                         retries (List.length (usd_polls e))) w)
  else if open_append e then
    Done tt (mkWorld (led w) false
               (Some (match card w with Some s => s | None => "" end ++
                      line ++ CRLF))
               (trace w ++ sensor_reads ++ [EvSerialPrintln line] ++
                retries (leading_absent (usd_polls e)) ++
                [EvSdBegin CS true] ++ append_events line))
  else
    Done tt (mkWorld false false (card w)
               (trace w ++ sensor_reads ++ [EvSerialPrintln line] ++
                retries (leading_absent (usd_polls e)) ++
                [EvSdBegin CS true] ++ failure_events)).

(** The check of setup that fails first, in the order setup makes them. *)
Definition first_failure (se : SetupEnv) : option Stage :=
  if SFleb (rtc_temperature se) rtc_error then Some RTC_test
  else if negb (ir_begin se) then Some IR_test
  else if negb (usd_begin se) then Some uSD_test
  else if negb (open_check se) then Some datalog_test
  else None.

(** The time spent in delay(), in milliseconds. *)
Definition total_delay (evs : list Event) : Z :=
  fold_right (fun ev acc => match ev with
                            | EvDelay ms => (ms + acc)%Z
                            | _ => acc
                            end) 0%Z evs.

Fixpoint count_char (c : ascii) (s : string) : nat :=
  match s with
  | "" => 0
  | String x rest => (if Ascii.eqb x c then 1 else 0) + count_char c rest
  end.

Definition is_digit (c : ascii) : bool :=
  Nat.leb 48 (nat_of_ascii c) && Nat.leb (nat_of_ascii c) 57.
Fixpoint digits (s : string) : bool :=
  match s with
  | "" => true
  | String c rest => is_digit c && digits rest
  end.

(** Power cycles: each one boots on the card the last one left, runs setup
    and then the iterations of loop it is given; the card is what remains. *)
Fixpoint power_cycles (String_float Print_double : float -> string)
         (sessions : list (SetupEnv * list LoopEnv)) (c : option string)
  : option string :=
  match sessions with
  | [] => c
  | (se, es) :: later =>
      power_cycles String_float Print_double later
        (card (world_of (main String_float Print_double se es (power_on c))))
  end.

(** The call whose answer makes setup halt, and the message setup prints
    before it spins. *)
Definition failing_call (s : Stage) : Event :=
  match s with
  | RTC_test => EvRtc getTemperature
  | IR_test => EvMlx mlx_begin
  | uSD_test => EvSdBegin CS false
  | datalog_test => EvSdOpen false
  end.

Definition failure_message (s : Stage) : string :=
  match s with
  | datalog_test => "datalog.csv file is NOT accessible!"
  | _ => "FAIL!"
  end.
(** ** Strings *)

Lemma append_assoc (a b c : string) : (a ++ b) ++ c = a ++ b ++ c.
Proof. induction a as [|x a IH]; simpl; [reflexivity | now rewrite IH]. Qed.

Lemma append_nil_r (a : string) : a ++ "" = a.
Proof. induction a as [|x a IH]; simpl; [reflexivity | now rewrite IH]. Qed.

Lemma length_append (a b : string) :
  String.length (a ++ b) = String.length a + String.length b.
Proof. induction a as [|x a IH]; simpl; [reflexivity | now rewrite IH]. Qed.

Lemma plain_append (a b : string) : plain (a ++ b) = plain a && plain b.
Proof.
  induction a as [|x a IH]; simpl; [reflexivity|].
  now rewrite IH, andb_assoc.
Qed.

Lemma plain_NilEmpty (d : Decimal.uint) : plain (NilEmpty.string_of_uint d) = true.
Proof. induction d; simpl; auto. Qed.

Lemma plain_String_byte (b : N) : plain (String_byte b) = true.
Proof.
  unfold String_byte, NilZero.string_of_uint.
  destruct (N.to_uint b) eqn:E; try reflexivity;
    rewrite <- E; apply plain_NilEmpty.
Qed.

Lemma plain_timestamp (c : Clock) : plain (timestamp c) = true.
Proof.
  unfold timestamp.
  repeat (rewrite plain_append || rewrite plain_String_byte); reflexivity.
Qed.

Lemma concat_cons (x : string) (xs : list string) :
  String.concat "" (x :: xs) = x ++ String.concat "" xs.
Proof. destruct xs; simpl; [now rewrite append_nil_r | reflexivity]. Qed.

Lemma split_lines_line (l : string) :
  plain l = true ->
  forall cur rest,
    split_lines cur (l ++ CRLF ++ rest) = (cur ++ l) :: split_lines "" rest.
Proof.
  induction l as [|c l IH]; intros Hp cur rest.
  - simpl. now rewrite append_nil_r.
  - simpl in Hp. apply andb_true_iff in Hp as [Hc Hl].
    unfold plain_char in Hc. apply negb_true_iff in Hc.
    apply orb_false_iff in Hc as [Hc HLF].
    apply orb_false_iff in Hc as [_ HCR].
    cbn [append split_lines]. rewrite HLF, HCR.
    rewrite (IH Hl). now rewrite append_assoc.
Qed.

Lemma file_lines_unlines (ls : list string) :
  Forall (fun l => plain l = true) ls -> file_lines (unlines ls) = ls.
Proof.
  unfold file_lines, unlines.
  induction 1 as [|l ls Hl _ IH]; [reflexivity|].
  cbn [map].
  rewrite concat_cons, append_assoc, (split_lines_line l Hl), IH. reflexivity.
Qed.

Lemma unlines_snoc (ls : list string) (l : string) :
  unlines (ls ++ [l]) = unlines ls ++ l ++ CRLF.
Proof.
  unfold unlines. induction ls as [|x ls IH].
  - reflexivity.
  - cbn [map List.app]. rewrite !concat_cons, IH, !append_assoc. reflexivity.
Qed.

(** ** strcpy *)

Lemma length_chars (s : string) :
  List.length (list_ascii_of_string s) = String.length s.
Proof. induction s as [|c s IH]; simpl; [reflexivity | now rewrite IH]. Qed.

Lemma within_offsets (size : nat) :
  forall n k cs,
    List.length cs = S n ->
    within size (combine (seq k (S n)) cs) = Nat.ltb (k + n) size.
Proof.
  induction n as [|n IH]; intros k cs Hlen.
  - destruct cs as [|c [|c' cs]]; try discriminate.
    simpl. now rewrite Nat.add_0_r, andb_true_r.
  - destruct cs as [|c cs]; [discriminate|].
    injection Hlen as Hlen.
    change (within size (combine (seq k (S (S n))) (c :: cs)))
      with (Nat.ltb k size && within size (combine (seq (S k) (S n)) cs)).
    rewrite (IH (S k) cs Hlen).
    destruct (Nat.ltb_spec k size), (Nat.ltb_spec (S k + n) size),
      (Nat.ltb_spec (k + S n) size); simpl; try reflexivity; lia.
Qed.

Lemma within_strcpy_writes (size : nat) (s : string) :
  within size (strcpy_writes s) = Nat.ltb (String.length s) size.
Proof.
  unfold strcpy_writes. rewrite within_offsets; [reflexivity|].
  rewrite length_app, length_chars. simpl. lia.
Qed.

Lemma store_at (pre : list ascii) (x : ascii) (rest : list ascii) (c : ascii) :
  store (pre ++ x :: rest)%list (List.length pre) c = (pre ++ c :: rest)%list.
Proof. induction pre as [|p pre IH]; simpl; [reflexivity | now rewrite IH]. Qed.

Lemma fold_store (cs : list ascii) :
  forall pre n,
    List.length cs <= n ->
    fold_left (fun b oc => store b (fst oc) (snd oc))
              (combine (seq (List.length pre) (List.length cs)) cs)
              (pre ++ repeat NUL n)%list
    = (pre ++ cs ++ repeat NUL (n - List.length cs))%list.
Proof.
  induction cs as [|c cs IH]; intros pre n Hn.
  - simpl. now rewrite Nat.sub_0_r.
  - destruct n as [|n]; [simpl in Hn; lia|].
    cbn [List.length seq combine fold_left repeat fst snd].
    rewrite store_at.
    replace (pre ++ c :: repeat NUL n)%list
      with ((pre ++ [c]) ++ repeat NUL n)%list
      by (now rewrite <- app_assoc).
    replace (S (List.length pre)) with (List.length (pre ++ [c])%list)
      by (rewrite length_app; simpl; lia).
    rewrite IH by (simpl in Hn; lia).
    rewrite <- app_assoc. reflexivity.
Qed.

Lemma c_string_chars (s : string) (rest : list ascii) :
  plain s = true -> c_string (list_ascii_of_string s ++ NUL :: rest)%list = s.
Proof.
  induction s as [|c s IH]; intros Hp; [reflexivity|].
  simpl in Hp. apply andb_true_iff in Hp as [Hc Hs].
  unfold plain_char in Hc. apply negb_true_iff in Hc.
  apply orb_false_iff in Hc as [Hc _]. apply orb_false_iff in Hc as [Hc _].
  cbn [list_ascii_of_string List.app c_string]. rewrite Hc, (IH Hs). reflexivity.
Qed.

(** A source that fits is copied whole and reads back unchanged. *)
Lemma strcpy_fits (size : nat) (s : string) (w : World) :
  plain s = true -> String.length s < size -> strcpy size s w = Done s w.
Proof.
  intros Hp Hlen. unfold strcpy.
  rewrite within_strcpy_writes.
  destruct (Nat.ltb_spec (String.length s) size) as [_|]; [|lia].
  unfold strcpy_writes.
  pose proof (fold_store (list_ascii_of_string s ++ [NUL])%list [] size) as F.
  rewrite length_app, length_chars in F. simpl in F.
  replace (String.length s + 1) with (S (String.length s)) in F by lia.
  rewrite F by lia.
  rewrite <- app_assoc. simpl. now rewrite c_string_chars.
Qed.

(** A source that does not fit makes strcpy write outside the buffer. *)
Lemma strcpy_overruns (size : nat) (s : string) (w : World) :
  size <= String.length s -> strcpy size s w = Overrun w.
Proof.
  intros Hlen. unfold strcpy. rewrite within_strcpy_writes.
  destruct (Nat.ltb_spec (String.length s) size); [lia | reflexivity].
Qed.

(** ** Running the sketches symbolically *)

(** Unfold the primitives and bring the state into the shape
    [mkWorld led datalog card (trace ++ events)]. *)
Ltac norm :=
  cbv [add_events log set_led set_datalog set_card led datalog card trace];
  rewrite <- ?app_assoc; cbn [List.app].

Ltac run :=
  cbv [bind ret emit spin pinMode digitalWrite Serial_begin Wire_begin
       Serial_print Serial_println delay rtc_get rtc_set mlx_get mlx_set
       SD_begin SD_exists SD_open datalog_println datalog_ok datalog_close
       is_some negb LED CS Z.eqb Pos.eqb world_of];
  norm.

Lemma print_time_eq (c : Clock) (w : World) :
  print_time c w = Done (timestamp c) (add_events clock_reads w).
Proof. destruct w. cbv [print_time timestamp clock_reads]. run. reflexivity. Qed.

Lemma add_events_app (a b : list Event) (w : World) :
  add_events b (add_events a w) = add_events (a ++ b) w.
Proof. destruct w. norm. reflexivity. Qed.

Lemma retries_S (n : nat) : retries (S n) = (retry ++ retries n)%list.
Proof. reflexivity. Qed.

(** The card answers [n] times that it is absent, then that it is there. *)
Lemma wait_for_card_found (n : nat) :
  forall later w,
    wait_for_card (repeat false n ++ true :: later) w
    = Done tt (add_events (retries n ++ [EvSdBegin CS true]) w).
Proof.
  induction n as [|n IH]; intros later w.
  - destruct w. reflexivity.
  - cbn [repeat List.app wait_for_card].
    cbv [bind SD_begin emit ret negb Serial_println delay].
    rewrite IH, retries_S. destruct w. unfold retry. norm. reflexivity.
Qed.

(** The card answers every time that it is absent. *)
Lemma wait_for_card_absent (polls : list bool) :
  forallb negb polls = true ->
  forall w, wait_for_card polls w = Polling (add_events (retries (List.length polls)) w).
Proof.
  induction polls as [|p polls IH]; intros Hall w.
  - destruct w. unfold retries. norm. now rewrite app_nil_r.
  - cbn [forallb] in Hall. apply andb_true_iff in Hall as [Hp Hall].
    destruct p; [discriminate|].
    cbn [wait_for_card List.length].
    cbv [bind SD_begin emit ret negb Serial_println delay].
    rewrite (IH Hall), retries_S. destruct w. unfold retry. norm. reflexivity.
Qed.

Lemma polls_cases (polls : list bool) :
  forallb negb polls = true \/
  exists n later, polls = (repeat false n ++ true :: later)%list.
Proof.
  induction polls as [|p polls [IH | (n & later & IH)]].
  - now left.
  - destruct p.
    + right. now exists 0, polls.
    + left. exact IH.
  - right. destruct p.
    + now exists 0, polls.
    + exists (S n), later. now rewrite IH.
Qed.

Lemma found_has_true (n : nat) (later : list bool) :
  In true (repeat false n ++ true :: later).
Proof. apply in_or_app. right. now left. Qed.

Lemma absent_has_no_true (polls : list bool) :
  forallb negb polls = true -> ~ In true polls.
Proof.
  intros Hall Hin. rewrite forallb_forall in Hall.
  specialize (Hall true Hin). discriminate.
Qed.

Section Loop.

Variable String_float : float -> string.

(** What String(float) gives decides whether the record is plain text. *)
Lemma plain_record (e : LoopEnv) :
  plain (record String_float e)
  = plain (String_float (object e)) && plain (String_float (ambient e)).
Proof.
  unfold record. now rewrite !plain_append, plain_timestamp.
Qed.

(** The record does not fit: control is lost in strcpy. *)
Lemma loop_overrun (e : LoopEnv) (w : World) :
  data_str_size <= String.length (record String_float e) ->
  loop String_float e w = Overrun (add_events sensor_reads w).
Proof.
  intros Hlen. unfold loop. unfold bind at 1. rewrite print_time_eq.
  cbv [mlx_get emit ret]. do 4 (unfold bind at 1).
  fold (record String_float e). unfold bind at 1.
  rewrite strcpy_overruns by exact Hlen.
  destruct w. unfold sensor_reads, clock_reads. norm. reflexivity.
Qed.

(** The record fits: what is left of loop runs with the record in
    data_str. *)
Lemma loop_fits (e : LoopEnv) (w : World) :
  plain (record String_float e) = true ->
  String.length (record String_float e) < data_str_size ->
  loop String_float e w
  = (wait_for_card (usd_polls e) ;;
     SD_open (open_append e) ;;
     ok <- datalog_ok ;;
     (if ok then
        datalog_println (record String_float e) ;;
        Serial_println "wrote to datalog.csv"
      else
        Serial_println "Could not open datalog.csv!" ;;
        digitalWrite LED true ;;
        delay 200 ;;
        digitalWrite LED false ;;
        delay 200 ;;
        digitalWrite LED true ;;
        delay 200 ;;
        digitalWrite LED false) ;;
     datalog_close ;;
     delay 60000)
      (add_events (sensor_reads ++ [EvSerialPrintln (record String_float e)]) w).
Proof.
  intros Hplain Hlen. unfold loop. unfold bind at 1. rewrite print_time_eq.
  cbv [mlx_get emit ret]. do 4 (unfold bind at 1).
  fold (record String_float e). unfold bind at 1.
  rewrite strcpy_fits by (exact Hplain || exact Hlen).
  unfold bind at 1. unfold Serial_println at 1, emit.
  f_equal. destruct w. unfold sensor_reads, clock_reads. norm. reflexivity.
Qed.

(** The card never answers: control stays in the polling loop. *)
Lemma loop_polling (e : LoopEnv) (w : World) :
  plain (record String_float e) = true ->
  String.length (record String_float e) < data_str_size ->
  forallb negb (usd_polls e) = true ->
  loop String_float e w
  = Polling (add_events (sensor_reads ++
                         [EvSerialPrintln (record String_float e)] ++
                         retries (List.length (usd_polls e))) w).
Proof.
  intros Hplain Hlen Habs. rewrite (loop_fits e w Hplain Hlen).
  unfold bind at 1. rewrite (wait_for_card_absent _ Habs).
  rewrite add_events_app, <- app_assoc. reflexivity.
Qed.

(** The card is found and the file opens: the record is appended. *)
Lemma loop_appended (e : LoopEnv) (w : World) (n : nat) (later : list bool) :
  plain (record String_float e) = true ->
  String.length (record String_float e) < data_str_size ->
  usd_polls e = (repeat false n ++ true :: later)%list ->
  open_append e = true ->
  loop String_float e w
  = Done tt
      (mkWorld (led w) false
         (Some (match card w with Some s => s | None => "" end ++
                record String_float e ++ CRLF))
         (trace w ++ sensor_reads ++
          [EvSerialPrintln (record String_float e)] ++ retries n ++
          [EvSdBegin CS true] ++ append_events (record String_float e))).
Proof.
  intros Hplain Hlen Hpolls Hopen.
  rewrite (loop_fits e w Hplain Hlen), Hpolls, Hopen.
  unfold bind at 1. rewrite wait_for_card_found, add_events_app.
  destruct w. unfold append_events. run. reflexivity.
Qed.

(** The card is found and the file does not open: the record is dropped. *)
Lemma loop_dropped (e : LoopEnv) (w : World) (n : nat) (later : list bool) :
  plain (record String_float e) = true ->
  String.length (record String_float e) < data_str_size ->
  usd_polls e = (repeat false n ++ true :: later)%list ->
  open_append e = false ->
  loop String_float e w
  = Done tt
      (mkWorld false false (card w)
         (trace w ++ sensor_reads ++
          [EvSerialPrintln (record String_float e)] ++ retries n ++
          [EvSdBegin CS true] ++ failure_events)).
Proof.
  intros Hplain Hlen Hpolls Hopen.
  rewrite (loop_fits e w Hplain Hlen), Hpolls, Hopen.
  unfold bind at 1. rewrite wait_for_card_found, add_events_app.
  destruct w. unfold failure_events. run. reflexivity.
Qed.

(** Any number of iterations only appends: the file afterwards is the file
    before followed by the records of the iterations that opened it. *)
Lemma loops_append_only (es : list LoopEnv) :
  forall w recs,
    Forall (fun e => plain (record String_float e) = true) es ->
    card w = Some (unlines recs) ->
    card (world_of (loops String_float es w))
    = Some (unlines (recs ++ appended String_float es)).
Proof.
  induction es as [|e es IH]; intros w recs Hplain Hcard.
  - cbn. now rewrite app_nil_r.
  - inversion Hplain as [|? ? He Hes]; subst.
    cbn [loops appended]. unfold bind at 1.
    destruct (Nat.ltb_spec (String.length (record String_float e)) data_str_size)
      as [Hfit | Hlong].
    + destruct (polls_cases (usd_polls e)) as [Habs | (n & later & Hpolls)].
      * rewrite (loop_polling e w He Hfit Habs).
        replace (existsb (fun present => present) (usd_polls e)) with false.
        { cbn. now rewrite app_nil_r. }
        symmetry. apply not_true_is_false. intros Hex.
        apply existsb_exists in Hex as (b & Hin & Hb). subst b.
        exact (absent_has_no_true _ Habs Hin).
      * replace (existsb (fun present => present) (usd_polls e)) with true
          by (symmetry; apply existsb_exists; exists true; split;
              [rewrite Hpolls; apply found_has_true | reflexivity]).
        cbn [andb]. destruct (open_append e) eqn:Hopen.
        -- rewrite (loop_appended e w n later He Hfit Hpolls Hopen).
           rewrite (app_assoc recs). apply IH; [exact Hes|].
           cbn [card]. now rewrite Hcard, unlines_snoc.
        -- rewrite (loop_dropped e w n later He Hfit Hpolls Hopen).
           cbn [List.app]. apply IH; [exact Hes | exact Hcard].
    + rewrite (loop_overrun e w Hlong). cbn. now rewrite app_nil_r.
Qed.

End Loop.


(** ** Reading traces *)

Lemma events_since_added (w w' : World) (evs : list Event) :
  trace w' = (trace w ++ evs)%list -> events_since w w' = evs.
Proof.
  intros E. unfold events_since. rewrite E, skipn_app, skipn_all, Nat.sub_diag.
  reflexivity.
Qed.

Lemma filter_retries (P : Event -> bool) (n : nat) :
  filter P retry = [] -> filter P (retries n) = [].
Proof.
  intros E. induction n as [|n IH]; [reflexivity|].
  now rewrite retries_S, filter_app, E, IH.
Qed.

Lemma led_levels_app (a b : list Event) :
  led_levels (a ++ b) = (led_levels a ++ led_levels b)%list.
Proof. apply flat_map_app. Qed.

Lemma led_levels_retries (n : nat) : led_levels (retries n) = [].
Proof.
  induction n as [|n IH]; [reflexivity|].
  now rewrite retries_S, led_levels_app, IH.
Qed.

Lemma phases_retries (n : nat) (rest : list Event) :
  phases (retries n ++ rest) = phases rest.
Proof.
  induction n as [|n IH]; [reflexivity|].
  rewrite retries_S, <- app_assoc. unfold retry at 1. cbn [List.app phases].
  exact IH.
Qed.

Lemma in_retries (ev : Event) (n : nat) : In ev (retries n) -> In ev retry.
Proof.
  induction n as [|n IH]; [intros []|].
  rewrite retries_S. intros H. apply in_app_or in H as [H | H]; auto.
Qed.

Lemma last_write_is_NUL (cs : list ascii) :
  forall k, In (k + List.length cs, NUL)
               (combine (seq k (S (List.length cs))) (cs ++ [NUL])).
Proof.
  induction cs as [|c cs IH]; intros k.
  - left. now rewrite Nat.add_0_r.
  - right. cbn [List.length]. rewrite Nat.add_succ_r. exact (IH (S k)).
Qed.

Lemma terminator_written (s : string) :
  In (String.length s, NUL) (strcpy_writes s).
Proof.
  unfold strcpy_writes. rewrite <- (length_chars s).
  exact (last_write_is_NUL (list_ascii_of_string s) 0).
Qed.

(** ** The steady-state loop *)

Section Steady_state.

Variable String_float : float -> string.

Ltac found e Hin :=
  destruct (polls_cases (usd_polls e)) as [Habs | (n & later & Hpolls)];
  [exfalso; exact (absent_has_no_true _ Habs Hin)|].

(** C1.  A successful append adds exactly one line at the end of the file:
    when the file holds the header and N records, and loop finds the card
    and opens the file, the file afterwards is the old content followed by
    the record and CRLF, its lines are the header and N+1 records in the
    old order, the only calls on the file in this iteration are one open,
    one println and one close, and the handle is closed.  (Stated for a
    record that is plain text and fits data_str, see C9.) *)
Theorem append_adds_one_line (e : LoopEnv) (w : World) (recs : list string) :
  card w = Some (unlines (CSV_HEADER :: recs)) ->
  Forall (fun r => plain r = true) recs ->
  In true (usd_polls e) ->
  open_append e = true ->
  plain (record String_float e) = true ->
  String.length (record String_float e) <= 31 ->
  exists w' content',
    loop String_float e w = Done tt w' /\
    card w' = Some content' /\
    content' = unlines (CSV_HEADER :: recs) ++ record String_float e ++ CRLF /\
    file_lines content' = CSV_HEADER :: recs ++ [record String_float e] /\
    List.length (file_lines content') = 1 + (List.length recs + 1) /\
    filter on_file (events_since w w')
    = [EvSdOpen true; EvFilePrintln (record String_float e) true; EvFileClose] /\
    datalog w' = false.
Proof.
  intros Hcard Hrecs Hin Hopen Hplain Hlen. found e Hin.
  assert (Hfit : String.length (record String_float e) < data_str_size)
    by (unfold data_str_size; lia).
  pose proof (loop_appended String_float e w n later
                Hplain Hfit Hpolls Hopen) as Hrun.
  rewrite Hcard in Hrun.
  eexists. eexists. split; [exact Hrun|].
  assert (Hlines : file_lines (unlines (CSV_HEADER :: recs) ++
                               record String_float e ++ CRLF)
                   = CSV_HEADER :: recs ++ [record String_float e]).
  { rewrite <- unlines_snoc.
    change ((CSV_HEADER :: recs) ++ [record String_float e])%list
      with (CSV_HEADER :: recs ++ [record String_float e]).
    apply file_lines_unlines. constructor; [reflexivity|].
    apply Forall_app. split; [exact Hrecs|].
    constructor; [exact Hplain|constructor]. }
  split; [reflexivity|]. split; [reflexivity|]. split; [exact Hlines|].
  split; [rewrite Hlines; cbn [List.length]; rewrite length_app; simpl; lia|].
  split; [|reflexivity].
  erewrite events_since_added by reflexivity.
  rewrite !filter_app, (filter_retries on_file n) by reflexivity.
  reflexivity.
Qed.

(** C4, as amended.  When loop finds the card and the file does not open,
    the indicator is switched on, off, on and off again: two on/off pulses,
    with a 200 ms delay after each of the first three writes, and it ends
    off; nothing is printed to the file and the file is unchanged.  (Stated
    for a record that is plain text and fits data_str, see C9.) *)
Theorem failed_open_blinks_twice (e : LoopEnv) (w : World) :
  In true (usd_polls e) ->
  open_append e = false ->
  plain (record String_float e) = true ->
  String.length (record String_float e) <= 31 ->
  exists w' before,
    loop String_float e w = Done tt w' /\
    events_since w w' = (before ++ failure_events)%list /\
    led_levels (events_since w w') = [true; false; true; false] /\
    pulses (led w) (led_levels (events_since w w')) = 2 /\
    phases (events_since w w') = [200; 200; 200]%Z /\
    led w' = false /\
    filter is_file_println (events_since w w') = [] /\
    card w' = card w.
Proof.
  intros Hin Hopen Hplain Hlen. found e Hin.
  assert (Hfit : String.length (record String_float e) < data_str_size)
    by (unfold data_str_size; lia).
  pose proof (loop_dropped String_float e w n later
                Hplain Hfit Hpolls Hopen) as Hrun.
  eexists.
  exists (sensor_reads ++ [EvSerialPrintln (record String_float e)] ++
          retries n ++ [EvSdBegin CS true])%list.
  split; [exact Hrun|].
  erewrite events_since_added by reflexivity.
  split; [now rewrite <- !app_assoc|].
  assert (Hleds : led_levels (sensor_reads ++
                    [EvSerialPrintln (record String_float e)] ++ retries n ++
                    [EvSdBegin CS true] ++ failure_events)
                  = [true; false; true; false]).
  { now rewrite !led_levels_app, led_levels_retries. }
  split; [exact Hleds|]. split; [rewrite Hleds; now destruct (led w)|].
  split.
  { unfold sensor_reads, clock_reads. cbn [List.app phases].
    now rewrite phases_retries. }
  split; [reflexivity|]. split; [|reflexivity].
  rewrite !filter_app, (filter_retries is_file_println n) by reflexivity.
  reflexivity.
Qed.

(** X14.  For a record that is plain text and has at most 31 characters:
    after the record is formatted and printed, loop asks the card again and
    again: each answer "absent" adds the message and a delay of
    1000 ms, for any number of answers; while every answer is "absent"
    control stays in that loop, with the file untouched; the first answer
    "present" leads straight to the open of the file, and then an open that
    succeeds appends the record.  The open is reached if and only if some
    answer is "present", and loop never ends in a halt. *)
Theorem card_polled_until_present (e : LoopEnv) (w : World) :
  plain (record String_float e) = true ->
  String.length (record String_float e) <= 31 ->
  (forallb negb (usd_polls e) = true ->
   exists w',
     loop String_float e w = Polling w' /\
     events_since w w'
     = (sensor_reads ++ [EvSerialPrintln (record String_float e)] ++
        retries (List.length (usd_polls e)))%list /\
     filter on_file (events_since w w') = [] /\
     card w' = card w) /\
  (forall n later,
     usd_polls e = (repeat false n ++ true :: later)%list ->
     exists w' rest,
       loop String_float e w = Done tt w' /\
       events_since w w'
       = (sensor_reads ++ [EvSerialPrintln (record String_float e)] ++
          retries n ++
          EvSdBegin CS true :: EvSdOpen (open_append e) :: rest)%list /\
       (open_append e = true ->
        card w' = Some (match card w with Some s => s | None => "" end ++
                        record String_float e ++ CRLF))) /\
  (In true (usd_polls e) <->
   existsb is_open (events_since w (world_of (loop String_float e w))) = true) /\
  (forall s w', loop String_float e w <> Halted s w').
Proof.
  intros Hplain Hlen.
  assert (Hfit : String.length (record String_float e) < data_str_size)
    by (unfold data_str_size; lia).
  assert (Hfound : forall n later,
     usd_polls e = (repeat false n ++ true :: later)%list ->
     exists w' rest,
       loop String_float e w = Done tt w' /\
       events_since w w'
       = (sensor_reads ++ [EvSerialPrintln (record String_float e)] ++
          retries n ++
          EvSdBegin CS true :: EvSdOpen (open_append e) :: rest)%list /\
       (open_append e = true ->
        card w' = Some (match card w with Some s => s | None => "" end ++
                        record String_float e ++ CRLF))).
  { intros n later Hpolls. destruct (open_append e) eqn:Hopen.
    - eexists. eexists. split.
      + exact (loop_appended String_float e w n later
                 Hplain Hfit Hpolls Hopen).
      + split; [|reflexivity].
        erewrite events_since_added by reflexivity. reflexivity.
    - eexists. eexists. split.
      + exact (loop_dropped String_float e w n later
                 Hplain Hfit Hpolls Hopen).
      + split; [|discriminate].
        erewrite events_since_added by reflexivity. reflexivity. }
  assert (Habsent : forallb negb (usd_polls e) = true ->
   exists w',
     loop String_float e w = Polling w' /\
     events_since w w'
     = (sensor_reads ++ [EvSerialPrintln (record String_float e)] ++
        retries (List.length (usd_polls e)))%list /\
     filter on_file (events_since w w') = [] /\
     card w' = card w).
  { intros Habs. eexists. split.
    - exact (loop_polling String_float e w Hplain Hfit Habs).
    - erewrite events_since_added by reflexivity.
      split; [reflexivity|]. split; [|reflexivity].
      rewrite !filter_app, (filter_retries on_file) by reflexivity.
      reflexivity. }
  split; [exact Habsent|]. split; [exact Hfound|]. split.
  - destruct (polls_cases (usd_polls e)) as [Habs | (n & later & Hpolls)].
    + destruct (Habsent Habs) as (w' & Hrun & Hev & _).
      rewrite Hrun. cbn [world_of]. rewrite Hev.
      split; [intros Hin; exfalso; exact (absent_has_no_true _ Habs Hin)|].
      rewrite !existsb_app. 
      assert (Hr : forall k, existsb is_open (retries k) = false).
      { induction k as [|k IH]; [reflexivity|].
        now rewrite retries_S, existsb_app, IH. }
      rewrite Hr. discriminate.
    + destruct (Hfound n later Hpolls) as (w' & rest & Hrun & Hev & _).
      rewrite Hrun. cbn [world_of]. rewrite Hev, Hpolls.
      split; [intros _|intros _; apply found_has_true].
      rewrite !existsb_app. cbn [existsb is_open].
      now rewrite !orb_true_r.
  - intros s w' Hrun.
    destruct (polls_cases (usd_polls e)) as [Habs | (n & later & Hpolls)].
    + destruct (Habsent Habs) as (w1 & Hrun1 & _). congruence.
    + destruct (Hfound n later Hpolls) as (w1 & rest & Hrun1 & _). congruence.
Qed.

(** C7.  When loop finds the card and the file does not open, the reading
    of this iteration is dropped: the file is unchanged, the open is tried
    once and not again, nothing is printed to the file, the indicator is
    switched on (and off) to flag it, and loop returns after its delay of
    60000 ms, so that the next iteration runs.  (Stated for a
    record that is plain text and fits data_str, see C9.) *)
Theorem failed_open_drops_reading (e : LoopEnv) (w : World) :
  In true (usd_polls e) ->
  open_append e = false ->
  plain (record String_float e) = true ->
  String.length (record String_float e) <= 31 ->
  exists w',
    loop String_float e w = Done tt w' /\
    card w' = card w /\
    filter is_open (events_since w w') = [EvSdOpen false] /\
    filter is_file_println (events_since w w') = [] /\
    In (EvDigitalWrite LED true) (events_since w w') /\
    (exists before,
       events_since w w' = (before ++ [EvFileClose; EvDelay 60000])%list) /\
    forall later, loops String_float (e :: later) w = loops String_float later w'.
Proof.
  intros Hin Hopen Hplain Hlen. found e Hin.
  assert (Hfit : String.length (record String_float e) < data_str_size)
    by (unfold data_str_size; lia).
  pose proof (loop_dropped String_float e w n later
                Hplain Hfit Hpolls Hopen) as Hrun.
  eexists. split; [exact Hrun|].
  erewrite events_since_added by reflexivity.
  split; [reflexivity|].
  split.
  { rewrite !filter_app, (filter_retries is_open n) by reflexivity.
    reflexivity. }
  split.
  { rewrite !filter_app, (filter_retries is_file_println n) by reflexivity.
    reflexivity. }
  split.
  { rewrite !app_assoc. apply in_or_app. right. right. right. now left. }
  split.
  { exists (sensor_reads ++ [EvSerialPrintln (record String_float e)] ++
            retries n ++ [EvSdBegin CS true] ++
            firstn 9 failure_events)%list.
    now rewrite <- !app_assoc. }
  intros later'. cbn [loops]. unfold bind at 1. now rewrite Hrun.
Qed.

(** C9.  strcpy into the 32-byte data_str stays inside the buffer exactly
    when the record has at most 31 characters.  Then data_str reads back as
    the record, which is what loop prints, and whatever the iteration
    prints to the file afterwards is that record.  A record of more than 31
    characters makes strcpy store its terminating NUL at an offset of 32 or
    more, outside the buffer, and the iteration does not get past the
    copy. *)
Theorem data_str_holds_31_characters (e : LoopEnv) (w : World) :
  (within data_str_size (strcpy_writes (record String_float e)) = true <->
   String.length (record String_float e) <= 31) /\
  (String.length (record String_float e) <= 31 ->
   plain (record String_float e) = true ->
   strcpy data_str_size (record String_float e) w
   = Done (record String_float e) w /\
   exists evs,
     events_since w (world_of (loop String_float e w))
     = (sensor_reads ++ EvSerialPrintln (record String_float e) :: evs)%list /\
     forall s b, In (EvFilePrintln s b) evs -> s = record String_float e) /\
  (31 < String.length (record String_float e) ->
   (exists off c,
      In (off, c) (strcpy_writes (record String_float e)) /\
      data_str_size <= off) /\
   loop String_float e w = Overrun (add_events sensor_reads w)).
Proof.
  split; [|split].
  - rewrite within_strcpy_writes. unfold data_str_size.
    destruct (Nat.ltb_spec (String.length (record String_float e)) 32);
      split; intros; (lia || discriminate || reflexivity).
  - intros Hlen Hplain.
    assert (Hfit : String.length (record String_float e) < data_str_size)
      by (unfold data_str_size; lia).
    split; [apply strcpy_fits; [exact Hplain | exact Hfit]|].
    assert (Hretry : forall k s b, ~ In (EvFilePrintln s b) (retries k)).
    { intros k s b H. apply in_retries in H.
      repeat (destruct H as [H | H]; [discriminate|]). exact H. }
    destruct (polls_cases (usd_polls e)) as [Habs | (n & later & Hpolls)].
    + rewrite (loop_polling String_float e w Hplain Hfit Habs).
      cbn [world_of]. erewrite events_since_added by reflexivity.
      eexists. split; [reflexivity|].
      intros s b H. exfalso. exact (Hretry _ _ _ H).
    + destruct (open_append e) eqn:Hopen.
      * rewrite (loop_appended String_float e w n later
                   Hplain Hfit Hpolls Hopen).
        cbn [world_of]. erewrite events_since_added by reflexivity.
        eexists. split; [reflexivity|].
        intros s b H. apply in_app_or in H as [H | H];
          [exfalso; exact (Hretry _ _ _ H)|].
        cbv [append_events failure_events] in H; cbn [In List.app] in H.
        repeat (destruct H as [H | H]; [try discriminate; congruence|]).
        destruct H.
      * rewrite (loop_dropped String_float e w n later
                   Hplain Hfit Hpolls Hopen).
        cbn [world_of]. erewrite events_since_added by reflexivity.
        eexists. split; [reflexivity|].
        intros s b H. apply in_app_or in H as [H | H];
          [exfalso; exact (Hretry _ _ _ H)|].
        cbv [append_events failure_events] in H; cbn [In List.app] in H.
        repeat (destruct H as [H | H]; [discriminate|]).
        destruct H.
  - intros Hlen. split.
    + exists (String.length (record String_float e)), NUL.
      split; [apply terminator_written | unfold data_str_size; lia].
    + apply loop_overrun. unfold data_str_size. lia.
Qed.

End Steady_state.

(** ** The clock test *)

Lemma SFcompare_antisym (a b : float) :
  SFcompare b a = option_map CompOpp (SFcompare a b).
Proof.
  destruct a as [[|]|[|]| |[|] m1 e1], b as [[|]|[|]| |[|] m2 e2];
    try reflexivity; cbn [SFcompare option_map];
    rewrite (Z.compare_antisym e1 e2); destruct (e1 ?= e2)%Z;
    cbn [CompOpp]; try reflexivity;
    rewrite (Pos.compare_cont_antisym m1 m2 Eq); reflexivity.
Qed.

(** A reading above the error value is not at or below it. *)
Lemma above_not_below (a b : float) : SFltb a b = true -> SFleb b a = false.
Proof.
  unfold SFltb, SFleb. rewrite (SFcompare_antisym a b).
  destruct (SFcompare a b) as [[| |]|]; try discriminate; reflexivity.
Qed.

(** ** Timestamps *)

Lemma length_String_byte (n : N) :
  (n < 100)%N ->
  String.length (String_byte n) = if (n <? 10)%N then 1 else 2.
Proof.
  intros H. destruct n as [|p]; [reflexivity|].
  do 7 (destruct p as [p|p|]; try reflexivity; try lia).
Qed.

(** X11.  For a clock within its bounds print_time gives between 13 and 19
    characters, and 19 exactly when every one of the six fields has two
    digits: a field below 10 is printed as one digit. *)
Lemma timestamp_length (c : Clock) :
  valid_clock c = true ->
  13 <= String.length (timestamp c) <= 19 /\
  (String.length (timestamp c) = 19 <-> two_digit_fields c = true).
Proof.
  destruct c as [y mo d h mi s]. unfold valid_clock, two_digit_fields, timestamp.
  cbn [year month date hour minute second]. intros V.
  repeat (apply andb_true_iff in V as [V ?]).
  repeat match goal with
         | H : (_ <=? _)%N = true |- _ => apply N.leb_le in H
         end.
  rewrite !length_append.
  rewrite !length_String_byte by lia. cbn [String.length].
  destruct (N.ltb_spec y 10), (N.ltb_spec mo 10), (N.ltb_spec d 10),
    (N.ltb_spec h 10), (N.ltb_spec mi 10), (N.ltb_spec s 10);
    repeat match goal with
           | H : (?a < 10)%N |- context [(10 <=? ?a)%N] =>
               replace (10 <=? a)%N with false by (symmetry; apply N.leb_gt; exact H)
           | H : (10 <= ?a)%N |- context [(10 <=? ?a)%N] =>
               replace (10 <=? a)%N with true by (symmetry; apply N.leb_le; exact H)
           end;
    cbn [andb]; (split; [lia | split; intros; (lia || congruence)]).
Qed.

(** ** Startup *)

Ltac run_setup :=
  cbv [main setup print_time];
  cbn [rtc_temperature setup_clock ir_begin ir_emissivity usd_begin
       open_header open_check];
  run.

(** Every way through setup: the answers of the peripherals, the card with
    or without the file, the clock test failing or not. *)
Ltac setup_cases se w E :=
  let t := fresh "t" in
  destruct se as [t ? [|] ? [|] [|] [|]], w as [? ? [?|] ?];
  destruct (SFleb t rtc_error) eqn:E.

(** A file that is on the card is left as it is by setup. *)
Lemma setup_keeps_existing_file
      (Print_double : float -> string) (se : SetupEnv) (w : World) (content : string) :
  card w = Some content ->
  card (world_of (setup Print_double se w)) = Some content /\
  filter is_file_println (events_since w (world_of (setup Print_double se w))) = [].
Proof.
  intros Hcard. setup_cases se w E; try discriminate Hcard;
    injection Hcard as ->; run_setup; rewrite ?E; run;
    (erewrite events_since_added by reflexivity); split; reflexivity.
Qed.

(** X12.  On a card without the file, with every peripheral answering and
    both opens succeeding, setup leaves a file that holds the header line
    and nothing else. *)
Lemma setup_creates_header
      (Print_double : float -> string) (se : SetupEnv) (w : World) :
  card w = None ->
  check_fails se = false ->
  open_header se = true ->
  exists w',
    setup Print_double se w = Done tt w' /\
    card w' = Some (unlines [CSV_HEADER]) /\
    led w' = false.
Proof.
  intros Hcard Hok Hopen. setup_cases se w E; try discriminate;
    cbv [check_fails] in Hok; cbn [rtc_temperature ir_begin usd_begin open_check] in Hok;
    rewrite E in Hok; try discriminate Hok;
    run_setup; rewrite ?E; run.
  eexists. split; [reflexivity|]. split; reflexivity.
Qed.

(** X13.  On a card without the file, when the open before the header
    fails and the open of the accessibility test succeeds, setup completes
    and leaves an empty file: the header is not in it, the println of the
    header went to a handle that was not open, and the serial line says the
    header was written all the same. *)
Lemma setup_loses_header
      (Print_double : float -> string) (se : SetupEnv) (w : World) :
  card w = None ->
  check_fails se = false ->
  open_header se = false ->
  exists w',
    setup Print_double se w = Done tt w' /\
    card w' = Some "" /\
    In (EvFilePrintln CSV_HEADER false) (events_since w w') /\
    In (EvSerialPrintln CSV_HEADER) (events_since w w').
Proof.
  intros Hcard Hok Hopen. setup_cases se w E; try discriminate;
    cbv [check_fails] in Hok; cbn [rtc_temperature ir_begin usd_begin open_check] in Hok;
    rewrite E in Hok; try discriminate Hok;
    run_setup; rewrite ?E; run.
  eexists. split; [reflexivity|]. split; [reflexivity|].
  erewrite events_since_added by reflexivity.
  split; cbn [In]; repeat (first [left; reflexivity | right]).
Qed.

(** A file that begins with the header still begins with it, once, after a
    power-on, setup and any number of iterations; what was in the file is
    followed by the records appended since. *)
Lemma session_keeps_header
      (String_float Print_double : float -> string)
      (se : SetupEnv) (es : list LoopEnv) (w : World) (recs : list string) :
  Forall (fun e => plain (record String_float e) = true) es ->
  card w = Some (unlines (CSV_HEADER :: recs)) ->
  exists more,
    card (world_of (main String_float Print_double se es w))
    = Some (unlines (CSV_HEADER :: recs ++ more)).
Proof.
  intros Hplain Hcard.
  destruct (setup_keeps_existing_file Print_double se w _ Hcard) as [Hkept _].
  unfold main, bind.
  destruct (setup Print_double se w) as [[] w1 | s w1 | w1 | w1];
    cbn [world_of] in *; try (exists []; now rewrite app_nil_r).
  exists (appended String_float es).
  exact (loops_append_only String_float es w1 (CSV_HEADER :: recs) Hplain Hkept).
Qed.

(** ** Calls on the peripherals *)

Section Frame.

Variable P : Event -> bool.

Lemma only_adds_ret {A} (a : A) : only_adds P (ret a).
Proof. intros w. exists []. cbn. now rewrite app_nil_r. Qed.

Lemma only_adds_spin {A} (s : Stage) : only_adds P (@spin A s).
Proof. intros w. exists []. cbn. now rewrite app_nil_r. Qed.

Lemma only_adds_emit (ev : Event) : P ev = true -> only_adds P (emit ev).
Proof. intros H w. exists [ev]. cbn. now rewrite H. Qed.

Lemma only_adds_bind {A B} (m : M A) (k : A -> M B) :
  only_adds P m -> (forall a, only_adds P (k a)) -> only_adds P (bind m k).
Proof.
  intros Hm Hk w. destruct (Hm w) as (evs1 & E1 & F1). unfold bind.
  destruct (m w) as [a w1 | s w1 | w1 | w1]; cbn [world_of] in *;
    try (exists evs1; now split).
  destruct (Hk a w1) as (evs2 & E2 & F2).
  exists (evs1 ++ evs2)%list. split.
  - now rewrite E2, E1, app_assoc.
  - now rewrite forallb_app, F1, F2.
Qed.

Lemma only_adds_digitalWrite (pin : Z) (high : bool) :
  P (EvDigitalWrite pin high) = true -> only_adds P (digitalWrite pin high).
Proof.
  intros H w. exists [EvDigitalWrite pin high]. unfold digitalWrite.
  destruct (Z.eqb pin LED); cbn; now rewrite H.
Qed.

Hypothesis P_card : forall ev, on_card ev = true -> P ev = true.

Lemma only_adds_SD_begin (cs : Z) (ok : bool) : only_adds P (SD_begin cs ok).
Proof.
  apply only_adds_bind; [apply only_adds_emit; now apply P_card|].
  intros _. apply only_adds_ret.
Qed.

Lemma only_adds_SD_exists : only_adds P SD_exists.
Proof.
  intros w. exists [EvSdExists (is_some (card w))]. cbn.
  now rewrite P_card.
Qed.

Lemma only_adds_SD_open (ok : bool) : only_adds P (SD_open ok).
Proof. intros w. exists [EvSdOpen ok]. cbn. now rewrite P_card. Qed.

Lemma only_adds_datalog_println (s : string) : only_adds P (datalog_println s).
Proof.
  intros w. unfold datalog_println.
  destruct (datalog w), (card w);
    (eexists; split; [cbn; reflexivity|]); cbn; now rewrite P_card.
Qed.

Lemma only_adds_datalog_ok : only_adds P datalog_ok.
Proof. intros w. exists []. cbn. now rewrite app_nil_r. Qed.

Lemma only_adds_datalog_close : only_adds P datalog_close.
Proof. intros w. exists [EvFileClose]. cbn. now rewrite P_card. Qed.

Lemma only_adds_strcpy (size : nat) (s : string) : only_adds P (strcpy size s).
Proof.
  intros w. exists []. unfold strcpy.
  destruct (within size (strcpy_writes s)); cbn; now rewrite app_nil_r.
Qed.

End Frame.

Lemma read_only_card (ev : Event) : on_card ev = true -> read_only ev = true.
Proof. destruct ev; try discriminate; reflexivity. Qed.

Create HintDb frame.

#[local] Hint Resolve only_adds_ret only_adds_spin only_adds_SD_begin
  only_adds_SD_exists only_adds_SD_open only_adds_datalog_println
  only_adds_datalog_ok only_adds_datalog_close only_adds_strcpy
  read_only_card : frame.

(** Follow the structure of a program: sequences, branches, primitives. *)
Ltac frame :=
  repeat first
    [ apply only_adds_bind; [|intro]
    | apply only_adds_emit; reflexivity
    | apply only_adds_digitalWrite; reflexivity
    | match goal with
      | |- only_adds _ (if ?b then _ else _) => destruct b
      end
    | solve [auto with frame] ].

Lemma print_time_reads (c : Clock) : only_adds read_only (print_time c).
Proof. unfold print_time, rtc_get. frame. Qed.

Lemma setup_reads (Print_double : float -> string) (se : SetupEnv) :
  only_adds read_only (setup Print_double se).
Proof.
  unfold setup, rtc_get, mlx_get, pinMode, Serial_begin, Wire_begin,
    Serial_print, Serial_println, delay.
  pose proof print_time_reads. frame.
Qed.

Lemma wait_for_card_reads (polls : list bool) :
  only_adds read_only (wait_for_card polls).
Proof.
  induction polls as [|p polls IH].
  - intros w. exists []. cbn. now rewrite app_nil_r.
  - cbn [wait_for_card]. unfold Serial_println, delay. frame.
Qed.

Lemma loop_reads (String_float : float -> string) (e : LoopEnv) :
  only_adds read_only (loop String_float e).
Proof.
  unfold loop, mlx_get, Serial_println, delay.
  pose proof print_time_reads. pose proof wait_for_card_reads. frame.
Qed.

Lemma loops_reads (String_float : float -> string) (es : list LoopEnv) :
  only_adds read_only (loops String_float es).
Proof.
  induction es as [|e es IH]; cbn [loops]; [apply only_adds_ret|].
  apply only_adds_bind; [apply loop_reads | intros _; exact IH].
Qed.

(** ** Claims about startup *)

(** C5.  When one of the four startup checks fails (clock test, sensor
    begin, card begin, open of the accessibility test), setup ends spinning
    in a [while(true);], and so does the whole program for any number of
    iterations of loop asked for: loop is never entered.  The indicator was
    switched on once and never off.  When the check that fails is the clock
    test or the sensor begin, no call into the SD library was made and the
    card is as it was, so no file was created. *)
Theorem failed_check_halts
        (String_float Print_double : float -> string) (se : SetupEnv) (w : World) :
  check_fails se = true ->
  exists s w',
    setup Print_double se w = Halted s w' /\
    (forall es, main String_float Print_double se es w = Halted s w') /\
    led w' = true /\
    led_levels (events_since w w') = [true] /\
    (fails_before_storage se = true ->
     card w' = card w /\ filter on_card (events_since w w') = []).
Proof.
  intros H. setup_cases se w E;
    cbv [check_fails fails_before_storage] in *;
    cbn [rtc_temperature ir_begin usd_begin open_check] in *;
    rewrite E in H; try discriminate H; clear H;
    run_setup; rewrite ?E; run.
  all: eexists; eexists; split; [reflexivity|]; split; [reflexivity|];
    split; [reflexivity|]; (erewrite events_since_added by reflexivity);
    split; [reflexivity|]; cbn [orb negb]; intros F; try discriminate F;
    split; reflexivity.
Qed.

(** C8.  setup spins after the clock test if and only if the temperature
    read from the clock compares at or below -9999; a reading that compares
    above -9999 takes setup past the test: "DONE!" is printed and the time
    is read and printed next. *)
Theorem clock_probe (Print_double : float -> string) (se : SetupEnv) (w : World) :
  ((exists w', setup Print_double se w = Halted RTC_test w') <->
   SFleb (rtc_temperature se) rtc_error = true) /\
  (SFltb rtc_error (rtc_temperature se) = true ->
   (forall w', setup Print_double se w <> Halted RTC_test w') /\
   exists rest,
     events_since w (world_of (setup Print_double se w))
     = (rtc_passed ++ clock_reads ++ rest)%list).
Proof.
  assert (Hpass : SFleb (rtc_temperature se) rtc_error = false ->
    (forall w', setup Print_double se w <> Halted RTC_test w') /\
    exists rest,
      events_since w (world_of (setup Print_double se w))
      = (rtc_passed ++ clock_reads ++ rest)%list).
  { intros H. setup_cases se w E; cbn [rtc_temperature] in H;
      try congruence; run_setup; rewrite ?E; run;
      (split; [intros w' Hw'; discriminate Hw'|]);
      (erewrite events_since_added by reflexivity);
      eexists; reflexivity. }
  split; [split|].
  - intros [w' Hw']. destruct (SFleb (rtc_temperature se) rtc_error) eqn:E;
      [reflexivity|].
    destruct (Hpass eq_refl) as [Hno _]. now elim (Hno w').
  - intros H. setup_cases se w E; cbn [rtc_temperature] in H;
      try congruence; run_setup; rewrite ?E; run; eexists; reflexivity.
  - intros H. apply Hpass. now apply above_not_below.
Qed.

(** C2, on the code.  On a card without the file, when the open before the
    header fails and the later opens succeed, the header is never written:
    setup reports it as written, leaves an empty file, and loop appends the
    first record as the first line; after the next power-on setup finds the
    file and writes no header either. *)
Theorem header_lost_after_failed_open :
  let first_run :=
    world_of (main sample_String_float sample_String_float
                   header_open_fails [reinserted] (power_on None)) in
  let second_run :=
    world_of (main sample_String_float sample_String_float
                   healthy_setup [reinserted] (power_on (card first_run))) in
  filter is_file_println (trace first_run)
  = [EvFilePrintln CSV_HEADER false;
     EvFilePrintln "2024-4-8 3:9:5,28.75,25.13" true] /\
  In (EvSerialPrintln CSV_HEADER) (trace first_run) /\
  card first_run = Some (unlines ["2024-4-8 3:9:5,28.75,25.13"]) /\
  filter is_file_println (trace second_run)
  = [EvFilePrintln "2024-4-8 3:9:5,28.75,25.13" true] /\
  card second_run
  = Some (unlines ["2024-4-8 3:9:5,28.75,25.13"; "2024-4-8 3:9:5,28.75,25.13"]).
Proof.
  vm_compute. repeat split. repeat (first [left; reflexivity | right]).
Qed.


(** C3, on the code.  At the time calibrate.ino sets, 2024-04-08 03:09:05,
    print_time returns "2024-4-8 3:9:5": 14 characters, not 19, the fields
    are not padded with zeros. *)
Theorem calibrated_time_not_padded (w : World) :
  valid_clock calibrated_clock = true /\
  print_time calibrated_clock w
  = Done "2024-4-8 3:9:5" (add_events clock_reads w) /\
  String.length "2024-4-8 3:9:5" = 14.
Proof.
  split; [reflexivity|]. split; [|reflexivity]. now rewrite print_time_eq.
Qed.

(** C4, as the spec states it, fails: the iteration of [write_protected]
    finds the card, fails to open the file, and the indicator does not show
    three pulses. *)
Lemma three_pulses_refuted :
  In true (usd_polls write_protected) /\
  open_append write_protected = false /\
  ~ three_pulses sample_String_float write_protected one_record.
Proof.
  split; [now left|]. split; [reflexivity|].
  intros [H _]. vm_compute in H. discriminate H.
Qed.

(** C10.  Every call main.ino makes on the clock or on the sensor, in setup
    and in any number of iterations of loop, is one of the getters
    (getTemperature, the six date and time getters, begin, readEmissivity,
    readAmbientTempC, readObjectTempC); none sets anything.  The calls that
    set the clock and the emissivity are those of calibrate.ino. *)
Theorem main_only_reads_peripherals
        (String_float Print_double : float -> string)
        (se : SetupEnv) (es : list LoopEnv) (w : World) :
  (exists evs,
     trace (world_of (main String_float Print_double se es w))
     = (trace w ++ evs)%list /\
     forallb read_only evs = true /\
     filter writes_peripheral evs = []) /\
  filter writes_peripheral (events_since w (world_of (Calibrate.setup w)))
  = [EvRtc (setClockMode false); EvRtc (setYear 24); EvRtc (setMonth 4);
     EvRtc (setDate 8); EvRtc (setHour 3); EvRtc (setMinute 9);
     EvRtc (setSecond 5); EvMlx (writeEmissivity Calibrate.emissivity)].
Proof.
  split.
  - assert (H : only_adds read_only (main String_float Print_double se es)).
    { unfold main. apply only_adds_bind; [apply setup_reads|].
      intros _. apply loops_reads. }
    destruct (H w) as (evs & Htrace & Hall).
    exists evs. split; [exact Htrace|]. split; [exact Hall|].
    clear Htrace. induction evs as [|ev evs IH]; [reflexivity|].
    cbn [forallb] in Hall. apply andb_true_iff in Hall as [Hev Hall].
    cbn [filter]. unfold read_only in Hev.
    apply andb_true_iff in Hev as [_ Hev]. apply negb_true_iff in Hev.
    rewrite Hev. exact (IH Hall).
  - destruct w. unfold Calibrate.setup. run.
    erewrite events_since_added by reflexivity. reflexivity.
Qed.

(** ** The theorems at sample inputs *)

(** C1 on the card found at the third poll, with one record in the file. *)
Lemma append_adds_one_line_witness :
  card one_record = Some (unlines (CSV_HEADER :: ["2024-4-8 3:9:5,28.75,25.13"])) /\
  In true (usd_polls reinserted) /\
  open_append reinserted = true /\
  plain (record sample_String_float reinserted) = true /\
  String.length (record sample_String_float reinserted) <= 31 /\
  exists w' content',
    loop sample_String_float reinserted one_record = Done tt w' /\
    card w' = Some content' /\
    file_lines content'
    = [CSV_HEADER; "2024-4-8 3:9:5,28.75,25.13"; "2024-4-8 3:9:5,28.75,25.13"] /\
    List.length (file_lines content') = 1 + (1 + 1).
Proof.
  assert (Hlen : String.length (record sample_String_float reinserted) <= 31)
    by (vm_compute; lia).
  assert (Hin : In true (usd_polls reinserted)) by (simpl; tauto).
  assert (Hrecs : Forall (fun r => plain r = true) ["2024-4-8 3:9:5,28.75,25.13"])
    by (repeat constructor).
  repeat (split; [first [reflexivity | exact Hlen | exact Hin]|]).
  destruct (append_adds_one_line sample_String_float reinserted one_record
              ["2024-4-8 3:9:5,28.75,25.13"] eq_refl
              Hrecs Hin eq_refl eq_refl Hlen)
    as (w' & content' & Hrun & Hcard & _ & Hlines & Hcount & _).
  exists w', content'. repeat split; assumption.
Defined.

(** C4 as amended, on the card that is there with a file that does not
    open. *)
Lemma failed_open_blinks_twice_witness :
  In true (usd_polls write_protected) /\
  open_append write_protected = false /\
  plain (record sample_String_float write_protected) = true /\
  String.length (record sample_String_float write_protected) <= 31 /\
  exists w',
    loop sample_String_float write_protected one_record = Done tt w' /\
    pulses (led one_record) (led_levels (events_since one_record w')) = 2 /\
    phases (events_since one_record w') = [200; 200; 200]%Z /\
    led w' = false /\
    card w' = card one_record.
Proof.
  assert (Hlen : String.length (record sample_String_float write_protected) <= 31)
    by (vm_compute; lia).
  assert (Hin : In true (usd_polls write_protected)) by (simpl; tauto).
  repeat (split; [first [reflexivity | exact Hlen | exact Hin]|]).
  destruct (failed_open_blinks_twice sample_String_float write_protected
              one_record Hin eq_refl eq_refl Hlen)
    as (w' & before & Hrun & _ & _ & Hpulses & Hphases & Hled & _ & Hcard).
  exists w'. repeat split; assumption.
Defined.

(** C5 on the sensor that does not answer, on a card without the file. *)
Lemma failed_check_halts_witness :
  check_fails sensor_absent = true /\
  fails_before_storage sensor_absent = true /\
  exists w',
    (forall es,
       main sample_String_float sample_String_float sensor_absent es
            (power_on None) = Halted IR_test w') /\
    led w' = true /\
    card w' = None.
Proof.
  split; [reflexivity|]. split; [reflexivity|].
  destruct (failed_check_halts sample_String_float sample_String_float
              sensor_absent (power_on None) eq_refl)
    as (s & w' & Hsetup & Hmain & Hled & _ & Hcard).
  exists w'. split; [|split; [exact Hled | exact (proj1 (Hcard eq_refl))]].
  intros es. rewrite (Hmain es).
  assert (Hs : s = IR_test) by (vm_compute in Hsetup; congruence).
  now rewrite Hs.
Defined.

(** X14 on the card found at the third poll. *)
Lemma card_polled_until_present_witness :
  plain (record sample_String_float reinserted) = true /\
  String.length (record sample_String_float reinserted) <= 31 /\
  usd_polls reinserted = (repeat false 2 ++ [true])%list /\
  exists w' rest,
    loop sample_String_float reinserted one_record = Done tt w' /\
    events_since one_record w'
    = (sensor_reads ++
       [EvSerialPrintln (record sample_String_float reinserted)] ++
       retries 2 ++
       EvSdBegin CS true :: EvSdOpen (open_append reinserted) :: rest)%list.
Proof.
  assert (Hlen : String.length (record sample_String_float reinserted) <= 31)
    by (vm_compute; lia).
  split; [reflexivity|]. split; [exact Hlen|]. split; [reflexivity|].
  destruct (card_polled_until_present sample_String_float reinserted
              one_record eq_refl Hlen) as (_ & Hfound & _).
  destruct (Hfound 2 [] eq_refl) as (w' & rest & Hrun & Hev & _).
  exists w', rest. split; assumption.
Defined.

(** C7 on the card that is there with a file that does not open. *)
Lemma failed_open_drops_reading_witness :
  In true (usd_polls write_protected) /\
  open_append write_protected = false /\
  plain (record sample_String_float write_protected) = true /\
  String.length (record sample_String_float write_protected) <= 31 /\
  exists w',
    loop sample_String_float write_protected one_record = Done tt w' /\
    card w' = card one_record /\
    filter is_open (events_since one_record w') = [EvSdOpen false] /\
    loops sample_String_float [write_protected; reinserted] one_record
    = loops sample_String_float [reinserted] w'.
Proof.
  assert (Hlen : String.length (record sample_String_float write_protected) <= 31)
    by (vm_compute; lia).
  assert (Hin : In true (usd_polls write_protected)) by (simpl; tauto).
  repeat (split; [first [reflexivity | exact Hlen | exact Hin]|]).
  destruct (failed_open_drops_reading sample_String_float write_protected
              one_record Hin eq_refl eq_refl Hlen)
    as (w' & Hrun & Hcard & Hopens & _ & _ & _ & Hnext).
  exists w'. repeat split; try assumption. apply Hnext.
Defined.

(** C8 on a clock at 24.75 degrees. *)
Lemma clock_probe_witness :
  SFltb rtc_error (rtc_temperature healthy_setup) = true /\
  (forall w', setup sample_String_float healthy_setup (power_on None)
              <> Halted RTC_test w') /\
  exists rest,
    events_since (power_on None)
                 (world_of (setup sample_String_float healthy_setup (power_on None)))
    = (rtc_passed ++ clock_reads ++ rest)%list.
Proof.
  split; [reflexivity|].
  exact (proj2 (clock_probe sample_String_float healthy_setup (power_on None))
               eq_refl).
Defined.

(** C9 on a record of 26 characters and on the cold night's record of 33. *)
Lemma data_str_holds_31_characters_witness :
  (String.length (record sample_String_float reinserted) <= 31 /\
   plain (record sample_String_float reinserted) = true /\
   strcpy data_str_size (record sample_String_float reinserted) one_record
   = Done "2024-4-8 3:9:5,28.75,25.13" one_record) /\
  (record sample_String_float cold_night = "2024-12-18 13:19:15,-12.50,-10.25" /\
   31 < String.length (record sample_String_float cold_night) /\
   loop sample_String_float cold_night one_record
   = Overrun (add_events sensor_reads one_record)).
Proof.
  assert (Hfits : String.length (record sample_String_float reinserted) <= 31)
    by (vm_compute; lia).
  assert (Hlong : 31 < String.length (record sample_String_float cold_night))
    by (vm_compute; lia).
  split.
  - split; [exact Hfits|]. split; [reflexivity|].
    destruct (data_str_holds_31_characters sample_String_float reinserted
                one_record) as (_ & Hin & _).
    exact (proj1 (Hin Hfits eq_refl)).
  - split; [reflexivity|]. split; [exact Hlong|].
    destruct (data_str_holds_31_characters sample_String_float cold_night
                one_record) as (_ & _ & Hout).
    exact (proj2 (Hout Hlong)).
Defined.

(** ** One iteration in closed form *)

Lemma polls_found (n : nat) (later : list bool) :
  card_answers (repeat false n ++ true :: later) = true /\
  leading_absent (repeat false n ++ true :: later) = n.
Proof.
  induction n as [|n [IH1 IH2]]; [now split|].
  cbn [repeat List.app card_answers existsb leading_absent orb].
  split; [exact IH1 | now rewrite IH2].
Qed.

Lemma polls_absent (polls : list bool) :
  forallb negb polls = true -> card_answers polls = false.
Proof.
  induction polls as [|[|] polls IH]; cbn; intros H;
    [reflexivity | discriminate | now apply IH].
Qed.

Lemma strcpy_data_str (src : string) (w : World) :
  strcpy data_str_size src w
  = if fits src then Done (data_str_of src) w else Overrun w.
Proof. reflexivity. Qed.

(** loop does what its closed form says, whatever String(float) gives. *)
Lemma loop_run (String_float : float -> string) (e : LoopEnv) (w : World) :
  loop String_float e w = loop_summary String_float e w.
Proof.
  unfold loop, loop_summary. unfold bind at 1. rewrite print_time_eq.
  cbv [mlx_get emit ret]. do 4 (unfold bind at 1).
  fold (record String_float e). unfold bind at 1.
  rewrite strcpy_data_str. destruct (fits (record String_float e)); cbn [negb].
  - unfold bind at 1. unfold Serial_println at 1, emit. unfold bind at 1.
    destruct (polls_cases (usd_polls e)) as [Habs | (n & later & Hpolls)].
    + rewrite (wait_for_card_absent _ Habs), (polls_absent _ Habs). cbn [negb].
      destruct w. unfold sensor_reads, clock_reads. norm. reflexivity.
    + rewrite Hpolls, wait_for_card_found.
      destruct (polls_found n later) as [-> ->]. cbn [negb].
      destruct (open_append e), w;
        unfold sensor_reads, clock_reads, append_events, failure_events;
        run; reflexivity.
  - destruct w. unfold sensor_reads, clock_reads. norm. reflexivity.
Qed.

Lemma total_delay_app (a b : list Event) :
  total_delay (a ++ b) = (total_delay a + total_delay b)%Z.
Proof.
  induction a as [|ev a IH]; [reflexivity|].
  cbn [List.app total_delay fold_right]. fold (total_delay (a ++ b)).
  fold (total_delay a). rewrite IH. destruct ev; lia.
Qed.

Lemma total_delay_retries (n : nat) :
  total_delay (retries n) = (1000 * Z.of_nat n)%Z.
Proof.
  induction n as [|n IH]; [reflexivity|].
  rewrite retries_S, total_delay_app, IH. cbn [retry total_delay fold_right]. lia.
Qed.

(** ** More about the steady-state loop *)

(** X1.  In one iteration of loop the indicator pin is written only when
    the card answered and the file did not open (then on, off, on, off, left
    off).  While loop polls for a missing card, and when it appends, the pin
    is not written and the indicator stays as it was. *)
Theorem indicator_written_only_on_failed_open
        (String_float : float -> string) (e : LoopEnv) (w : World) :
  let w' := world_of (loop String_float e w) in
  let failed_open :=
    fits (record String_float e) && card_answers (usd_polls e) &&
    negb (open_append e) in
  led_levels (events_since w w')
  = (if failed_open then [true; false; true; false] else []) /\
  led w' = (if failed_open then false else led w).
Proof.
  rewrite loop_run. unfold loop_summary.
  destruct (fits (record String_float e)), (card_answers (usd_polls e)),
    (open_append e); cbn [negb andb world_of];
    (erewrite events_since_added by reflexivity);
    rewrite ?led_levels_app, ?led_levels_retries; split; reflexivity.
Qed.

(** X2.  For a record of at most 31 characters, so that strcpy stays inside
    data_str: the time one iteration of loop spends in delay() is 60000 ms at
    its end, 1000 ms for each answer "absent" before the card answers, and
    600 ms of blinking when the file does not open; while the card never
    answers it is 1000 ms per poll. *)
Theorem iteration_delay
        (String_float : float -> string) (e : LoopEnv) (w : World) :
  String.length (record String_float e) <= 31 ->
  total_delay (events_since w (world_of (loop String_float e w)))
  = (if card_answers (usd_polls e)
     then 60000 + 1000 * Z.of_nat (leading_absent (usd_polls e)) +
          (if open_append e then 0 else 600)
     else 1000 * Z.of_nat (List.length (usd_polls e)))%Z.
Proof.
  intros Hlen.
  assert (Hfits : fits (record String_float e) = true).
  { unfold fits. rewrite within_strcpy_writes. apply Nat.ltb_lt.
    unfold data_str_size. lia. }
  rewrite loop_run. unfold loop_summary. rewrite Hfits.
  destruct (card_answers (usd_polls e)), (open_append e); cbn [negb world_of];
    (erewrite events_since_added by reflexivity);
    rewrite ?total_delay_app, ?total_delay_retries;
    cbn [sensor_reads clock_reads List.app append_events failure_events
         total_delay fold_right]; lia.
Qed.

(** X3.  Whatever one iteration of loop prints to the file, it has echoed
    on the serial line first, and the print went through an open handle:
    the only line is the content of data_str. *)
Theorem logged_line_was_echoed
        (String_float : float -> string) (e : LoopEnv) (w : World)
        (s : string) (written : bool) :
  In (EvFilePrintln s written)
     (events_since w (world_of (loop String_float e w))) ->
  written = true /\
  s = data_str_of (record String_float e) /\
  exists before after,
    events_since w (world_of (loop String_float e w))
    = (before ++ EvSerialPrintln s :: after)%list /\
    In (EvFilePrintln s written) after.
Proof.
  rewrite loop_run. unfold loop_summary.
  assert (Hretry : forall k, ~ In (EvFilePrintln s written) (retries k)).
  { intros k H. apply in_retries in H.
    repeat (destruct H as [H | H]; [discriminate|]). exact H. }
  destruct (fits (record String_float e)), (card_answers (usd_polls e)),
    (open_append e); cbn [negb world_of];
    (erewrite events_since_added by reflexivity); intros H;
    repeat (apply in_app_or in H as [H | H]);
    try (exfalso; exact (Hretry _ H));
    cbv [sensor_reads clock_reads append_events failure_events] in H;
    cbn [In List.app] in H;
    repeat (destruct H as [H | H]; [try discriminate H|]); try contradiction.
  injection H as <- <-. split; [reflexivity|]. split; [reflexivity|].
  exists sensor_reads. eexists. split; [reflexivity|].
  apply in_or_app. right. right. right. now left.
Qed.

(** Any number of iterations leaves the file as it was, followed by whole
    lines, whatever String(float) gives. *)
Lemma loops_only_append (String_float : float -> string) (es : list LoopEnv) :
  forall w recs,
    card w = Some (unlines recs) ->
    exists more,
      card (world_of (loops String_float es w)) = Some (unlines (recs ++ more)).
Proof.
  induction es as [|e es IH]; intros w recs Hcard.
  - exists []. cbn. now rewrite app_nil_r.
  - cbn [loops]. unfold bind at 1. rewrite loop_run. unfold loop_summary.
    destruct (fits (record String_float e)), (card_answers (usd_polls e)),
      (open_append e); cbn [negb world_of];
      try (exists []; cbn; now rewrite app_nil_r).
    + destruct (IH (mkWorld (led w) false
                      (Some (match card w with Some s => s | None => "" end ++
                             data_str_of (record String_float e) ++ CRLF))
                      (trace w ++ sensor_reads ++
                       [EvSerialPrintln (data_str_of (record String_float e))] ++
                       retries (leading_absent (usd_polls e)) ++
                       [EvSdBegin CS true] ++
                       append_events (data_str_of (record String_float e))))
                   (recs ++ [data_str_of (record String_float e)])%list)
        as (more & Hmore).
      { cbn [card]. now rewrite Hcard, unlines_snoc. }
      exists (data_str_of (record String_float e) :: more).
      rewrite Hmore, <- app_assoc. reflexivity.
    + apply IH. exact Hcard.
Qed.

(** No iteration of loop ends in a halt. *)
Lemma loops_outcome (String_float : float -> string) (es : list LoopEnv) :
  forall w s w', loops String_float es w <> Halted s w'.
Proof.
  induction es as [|e es IH]; intros w s w'; [discriminate|].
  cbn [loops]. unfold bind at 1. rewrite loop_run. unfold loop_summary.
  destruct (fits (record String_float e)), (card_answers (usd_polls e)),
    (open_append e); cbn [negb]; try discriminate; apply IH.
Qed.

(** Iterations that return leave the file handle closed, and the indicator
    off if it was off. *)
Lemma loops_rest_state (String_float : float -> string) (es : list LoopEnv) :
  forall w w',
    loops String_float es w = Done tt w' ->
    led w = false -> datalog w = false ->
    led w' = false /\ datalog w' = false.
Proof.
  induction es as [|e es IH]; intros w w' Hrun Hled Hlog.
  - injection Hrun as <-. now split.
  - cbn [loops] in Hrun. unfold bind at 1 in Hrun.
    rewrite loop_run in Hrun. unfold loop_summary in Hrun.
    destruct (fits (record String_float e)), (card_answers (usd_polls e)),
      (open_append e); cbn [negb] in Hrun; try discriminate Hrun;
      exact (IH _ _ Hrun ltac:(cbn; auto) eq_refl).
Qed.

Lemma setup_rest_state
      (Print_double : float -> string) (se : SetupEnv) (w w' : World) :
  setup Print_double se w = Done tt w' ->
  led w' = false /\ datalog w' = false /\ is_some (card w') = true.
Proof.
  setup_cases se w E; run_setup; rewrite ?E; run; intros H;
    try discriminate H; injection H as <-; repeat split.
Qed.

(** ** The program as a whole *)

(** X4.  The program halts only in setup: main ends in one of the
    [while(true);] exactly when setup does, in the same state, and once setup
    has returned no number of iterations of loop ends in a halt. *)
Theorem halts_only_in_setup
        (String_float Print_double : float -> string)
        (se : SetupEnv) (es : list LoopEnv) (w : World) :
  (forall s w',
     main String_float Print_double se es w = Halted s w' <->
     setup Print_double se w = Halted s w') /\
  (forall w1 s w', loops String_float es w1 <> Halted s w').
Proof.
  split; [|intros w1; apply loops_outcome].
  intros s w'. unfold main, bind.
  destruct (setup Print_double se w) as [[] w1 | s1 w1 | w1 | w1];
    split; intros H; try discriminate H; try exact H.
  now elim (loops_outcome String_float es w1 s w').
Qed.

(** X5.  Whenever the program is between two iterations of loop (setup and
    the iterations so far have returned), the file handle is closed, the
    indicator is off and datalog.csv is on the card. *)
Theorem at_rest_between_iterations
        (String_float Print_double : float -> string)
        (se : SetupEnv) (es : list LoopEnv) (w w' : World) :
  main String_float Print_double se es w = Done tt w' ->
  datalog w' = false /\ led w' = false /\ is_some (card w') = true.
Proof.
  unfold main, bind. intros Hrun.
  destruct (setup Print_double se w) as [[] w1 | s1 w1 | w1 | w1] eqn:Hsetup;
    try discriminate Hrun.
  destruct (setup_rest_state Print_double se w w1 Hsetup) as (Hled & Hlog & Hfile).
  destruct (loops_rest_state String_float es w1 w' Hrun Hled Hlog) as [Hled' Hlog'].
  split; [exact Hlog'|]. split; [exact Hled'|].
  destruct (card w1) as [content|] eqn:Hcard; [|discriminate Hfile].
  assert (Hkeep : forall es w1, is_some (card w1) = true ->
            is_some (card (world_of (loops String_float es w1))) = true).
  { clear. induction es as [|e es IH]; intros w1 H; [exact H|].
    cbn [loops]. unfold bind at 1. rewrite loop_run. unfold loop_summary.
    destruct (fits (record String_float e)), (card_answers (usd_polls e)),
      (open_append e); cbn [negb world_of]; try exact H; apply IH;
      [reflexivity | exact H]. }
  specialize (Hkeep es w1). rewrite Hrun, Hcard in Hkeep. exact (Hkeep eq_refl).
Qed.

(** X6.  Across any number of power cycles, each with any answers of the
    peripherals and any number of iterations, a file that begins with the
    header line keeps every line it has, in order and with the header first;
    the only change is that lines are added after them.  Nothing is
    truncated, rewritten or put before the header. *)
Theorem power_cycles_only_append
        (String_float Print_double : float -> string)
        (sessions : list (SetupEnv * list LoopEnv)) :
  forall recs,
  exists more,
    power_cycles String_float Print_double sessions
                 (Some (unlines (CSV_HEADER :: recs)))
    = Some (unlines (CSV_HEADER :: recs ++ more)).
Proof.
  induction sessions as [|[se es] sessions IH]; intros recs.
  - exists []. cbn. now rewrite app_nil_r.
  - cbn [power_cycles].
    assert (Hsession : exists more,
      card (world_of (main String_float Print_double se es
                           (power_on (Some (unlines (CSV_HEADER :: recs))))))
      = Some (unlines (CSV_HEADER :: recs ++ more))).
    { destruct (setup_keeps_existing_file Print_double se
                  (power_on (Some (unlines (CSV_HEADER :: recs)))) _ eq_refl)
        as [Hkept _].
      unfold main, bind.
      destruct (setup Print_double se _) as [[] w1 | s w1 | w1 | w1];
        cbn [world_of] in *; try (exists []; now rewrite app_nil_r).
      exact (loops_only_append String_float es w1 (CSV_HEADER :: recs) Hkept). }
    destruct Hsession as (more1 & ->).
    destruct (IH (recs ++ more1)%list) as (more2 & ->).
    exists (more1 ++ more2)%list. now rewrite app_assoc.
Qed.

(** ** More about startup *)

Ltac split_last k :=
  match goal with
  | |- exists before, ?evs = (before ++ _)%list =>
      exists (firstn (List.length evs - k) evs); reflexivity
  end.

(** X7.  setup makes its four checks in the order clock, sensor, card,
    file, and stops at the first one that fails: the call that failed is the
    last call it makes, the failure message the last thing it prints, and
    it spins in the halt of that check.  It returns when none fails. *)
Theorem setup_stops_at_first_failure
        (Print_double : float -> string) (se : SetupEnv) (w : World) :
  match first_failure se with
  | Some s =>
      exists w',
        setup Print_double se w = Halted s w' /\
        exists before,
          events_since w w'
          = (before ++ [failing_call s; EvSerialPrintln (failure_message s)])%list
  | None => exists w', setup Print_double se w = Done tt w'
  end.
Proof.
  setup_cases se w E; cbv [first_failure];
    cbn [rtc_temperature ir_begin usd_begin open_check negb];
    rewrite E; run_setup; rewrite ?E; run;
    eexists; (split || idtac); try reflexivity;
    (erewrite events_since_added by reflexivity); split_last 2.
Qed.

(** X8.  When no check fails, setup returns with the file on the card, the
    handle closed and the indicator off; the indicator was on from the start
    of setup and is switched off once, after a delay of 1000 ms, just before
    the readiness message, which is the last thing setup does. *)
Theorem setup_completes_ready
        (Print_double : float -> string) (se : SetupEnv) (w : World) :
  check_fails se = false ->
  exists w',
    setup Print_double se w = Done tt w' /\
    led w' = false /\ datalog w' = false /\ is_some (card w') = true /\
    led_levels (events_since w w') = [true; false] /\
    exists before,
      events_since w w'
      = (before ++ [EvDelay 1000; EvDigitalWrite LED false;
                    EvSerialPrintln "***** INITIALIZATION COMPLETE! *****"])%list.
Proof.
  intros H. setup_cases se w E; cbv [check_fails] in H;
    cbn [rtc_temperature ir_begin usd_begin open_check] in H;
    rewrite E in H; try discriminate H; clear H;
    run_setup; rewrite ?E; run;
    eexists; (split; [reflexivity|]);
    (erewrite events_since_added by reflexivity);
    repeat (split; [reflexivity|]); split_last 3.
Qed.

(** ** More about timestamps and records *)

Lemma digits_NilEmpty (d : Decimal.uint) : digits (NilEmpty.string_of_uint d) = true.
Proof. induction d; simpl; auto. Qed.

Lemma digits_String_byte (b : N) : digits (String_byte b) = true.
Proof.
  unfold String_byte, NilZero.string_of_uint.
  destruct (N.to_uint b) eqn:E; try reflexivity;
    rewrite <- E; apply digits_NilEmpty.
Qed.

Lemma String_byte_inj (a b : N) : String_byte a = String_byte b -> a = b.
Proof.
  assert (Hnonnil : forall n, N.to_uint n <> Decimal.Nil).
  { intros [|p]; [discriminate | apply DecimalPos.Unsigned.to_uint_nonnil]. }
  unfold String_byte. intros H.
  apply (f_equal NilZero.uint_of_string) in H.
  rewrite !NilZero.usu in H by apply Hnonnil.
  injection H as H. now apply DecimalN.Unsigned.to_uint_inj.
Qed.

(** Two runs of digits, each followed by a character that is no digit, are
    equal when the strings are. *)
Lemma digits_then_separator (a : string) :
  forall b c1 c2 r1 r2,
    digits a = true -> digits b = true ->
    is_digit c1 = false -> is_digit c2 = false ->
    a ++ String c1 r1 = b ++ String c2 r2 ->
    a = b /\ r1 = r2.
Proof.
  induction a as [|x a IH]; intros [|y b] c1 c2 r1 r2 Ha Hb H1 H2 E;
    cbn [append digits] in *.
  - injection E as _ E. now split.
  - injection E as -> _. apply andb_true_iff in Hb as [Hy _]. congruence.
  - injection E as -> _. apply andb_true_iff in Ha as [Hx _]. congruence.
  - injection E as -> E.
    apply andb_true_iff in Ha as [_ Ha]. apply andb_true_iff in Hb as [_ Hb].
    destruct (IH b c1 c2 r1 r2 Ha Hb H1 H2 E) as [-> ->]. now split.
Qed.

(** X9.  The string print_time builds determines the six values it read:
    two clocks that differ in any field give different timestamps, although
    no field is padded. *)
Theorem timestamp_injective (c1 c2 : Clock) :
  c1 <> c2 -> timestamp c1 <> timestamp c2.
Proof.
  intros Hne E. apply Hne. clear Hne.
  destruct c1 as [y1 mo1 d1 h1 mi1 s1], c2 as [y2 mo2 d2 h2 mi2 s2].
  unfold timestamp in E. cbn [year month date hour minute second] in E.
  rewrite !append_assoc in E. cbn [append] in E. injection E as E.
  repeat match type of E with
         | String_byte ?a ++ String ?c _ = String_byte ?b ++ String ?c _ =>
             let Ea := fresh "E" in
             apply digits_then_separator in E as [Ea E];
             [apply String_byte_inj in Ea; subst
             | apply digits_String_byte | apply digits_String_byte
             | reflexivity | reflexivity]
         end.
  apply String_byte_inj in E. now subst.
Qed.

Lemma count_char_append (c : ascii) (a b : string) :
  count_char c (a ++ b) = count_char c a + count_char c b.
Proof.
  induction a as [|x a IH]; cbn [append count_char]; [reflexivity|].
  rewrite IH. lia.
Qed.

Lemma count_char_digits (c : ascii) (s : string) :
  is_digit c = false -> digits s = true -> count_char c s = 0.
Proof.
  intros Hc. induction s as [|x s IH]; cbn [digits count_char]; [reflexivity|].
  intros H. apply andb_true_iff in H as [Hx Hs]. rewrite (IH Hs).
  destruct (Ascii.eqb_spec x c) as [->|]; [congruence | reflexivity].
Qed.

(** X10.  The timestamp holds no comma, and the record loop builds has the
    two commas of the header plus those String(float) puts into the two
    readings: a record has the three columns of CSV_HEADER exactly when
    String(float) gives no comma. *)
Theorem record_fields (String_float : float -> string) (e : LoopEnv) :
  count_char "," (timestamp (loop_clock e)) = 0 /\
  count_char "," (record String_float e)
  = count_char "," CSV_HEADER +
    count_char "," (String_float (object e)) +
    count_char "," (String_float (ambient e)).
Proof.
  assert (Hts : count_char "," (timestamp (loop_clock e)) = 0).
  { unfold timestamp.
    rewrite !count_char_append,
      !(count_char_digits "," _ eq_refl (digits_String_byte _)).
    reflexivity. }
  split; [exact Hts|].
  unfold record. rewrite !count_char_append, Hts. cbn. lia.
Qed.

(** ** More theorems at sample inputs *)

(** X3 on the card found at the third poll. *)
Lemma logged_line_was_echoed_witness :
  In (EvFilePrintln "2024-4-8 3:9:5,28.75,25.13" true)
     (events_since one_record
        (world_of (loop sample_String_float reinserted one_record))) /\
  "2024-4-8 3:9:5,28.75,25.13"
  = data_str_of (record sample_String_float reinserted).
Proof.
  assert (Hin : In (EvFilePrintln "2024-4-8 3:9:5,28.75,25.13" true)
     (events_since one_record
        (world_of (loop sample_String_float reinserted one_record))))
    by (vm_compute; repeat (first [left; reflexivity | right])).
  split; [exact Hin|].
  exact (proj1 (proj2 (logged_line_was_echoed sample_String_float reinserted
                         one_record _ _ Hin))).
Defined.

(** X5 after a healthy setup on an empty card, an append and a failed
    open. *)
Lemma at_rest_between_iterations_witness :
  let w' := world_of (main sample_String_float sample_String_float healthy_setup
                           [reinserted; write_protected] (power_on None)) in
  main sample_String_float sample_String_float healthy_setup
       [reinserted; write_protected] (power_on None) = Done tt w' /\
  datalog w' = false /\ led w' = false /\ is_some (card w') = true.
Proof.
  intros w'.
  assert (Hrun : main sample_String_float sample_String_float healthy_setup
                   [reinserted; write_protected] (power_on None) = Done tt w')
    by (vm_compute; reflexivity).
  split; [exact Hrun|].
  exact (at_rest_between_iterations sample_String_float sample_String_float
           healthy_setup [reinserted; write_protected] (power_on None) w' Hrun).
Defined.

(** X8 on the healthy board with an empty card. *)
Lemma setup_completes_ready_witness :
  check_fails healthy_setup = false /\
  exists w',
    setup sample_String_float healthy_setup (power_on None) = Done tt w' /\
    led w' = false /\ datalog w' = false /\
    led_levels (events_since (power_on None) w') = [true; false].
Proof.
  split; [reflexivity|].
  destruct (setup_completes_ready sample_String_float healthy_setup
              (power_on None) eq_refl)
    as (w' & Hrun & Hled & Hlog & _ & Hlevels & _).
  exists w'. repeat split; assumption.
Defined.

(** X9 on the calibrated time and the winter evening. *)
Lemma timestamp_injective_witness :
  calibrated_clock <> winter_clock /\
  timestamp calibrated_clock <> timestamp winter_clock.
Proof.
  assert (Hne : calibrated_clock <> winter_clock) by discriminate.
  split; [exact Hne|]. exact (timestamp_injective _ _ Hne).
Defined.

(** X11 on the calibrated time: one-digit month, day, hour, minute and
    second. *)
Lemma timestamp_length_witness :
  valid_clock calibrated_clock = true /\
  13 <= String.length (timestamp calibrated_clock) <= 19 /\
  (String.length (timestamp calibrated_clock) = 19 <->
   two_digit_fields calibrated_clock = true).
Proof.
  split; [reflexivity|]. exact (timestamp_length calibrated_clock eq_refl).
Defined.

(** X12 on the healthy board with an empty card. *)
Lemma setup_creates_header_witness :
  card (power_on None) = None /\
  check_fails healthy_setup = false /\
  open_header healthy_setup = true /\
  exists w',
    setup sample_String_float healthy_setup (power_on None) = Done tt w' /\
    card w' = Some (unlines [CSV_HEADER]) /\
    led w' = false.
Proof.
  repeat (split; [reflexivity|]).
  exact (setup_creates_header sample_String_float healthy_setup (power_on None)
           eq_refl eq_refl eq_refl).
Defined.

(** X13 on the board whose first open fails, with an empty card. *)
Lemma setup_loses_header_witness :
  card (power_on None) = None /\
  check_fails header_open_fails = false /\
  open_header header_open_fails = false /\
  exists w',
    setup sample_String_float header_open_fails (power_on None) = Done tt w' /\
    card w' = Some "" /\
    In (EvFilePrintln CSV_HEADER false) (events_since (power_on None) w') /\
    In (EvSerialPrintln CSV_HEADER) (events_since (power_on None) w').
Proof.
  repeat (split; [reflexivity|]).
  exact (setup_loses_header sample_String_float header_open_fails (power_on None)
           eq_refl eq_refl eq_refl).
Defined.

(** X2 on the card that is there with a file that does not open, and on the
    card found at the third poll. *)
Lemma iteration_delay_witness :
  String.length (record sample_String_float write_protected) <= 31 /\
  String.length (record sample_String_float reinserted) <= 31 /\
  total_delay (events_since one_record
                 (world_of (loop sample_String_float write_protected one_record)))
  = 60600%Z /\
  total_delay (events_since one_record
                 (world_of (loop sample_String_float reinserted one_record)))
  = 62000%Z.
Proof.
  assert (H1 : String.length (record sample_String_float write_protected) <= 31)
    by (vm_compute; lia).
  assert (H2 : String.length (record sample_String_float reinserted) <= 31)
    by (vm_compute; lia).
  split; [exact H1|]. split; [exact H2|]. split.
  - exact (iteration_delay sample_String_float write_protected one_record H1).
  - exact (iteration_delay sample_String_float reinserted one_record H2).
Defined.
